(** * AvData: the FAA fixed-width facility parser and the nearest-airports query

    A shallow embedding of [AeroData.py], [AvData.py], [Airport.py] and
    [Runway.py].  Python [str] values read from the ISO-8859-1 dataset are
    [string]s (one 8-bit character per code point), Python [int]s are [Z],
    Python [float]s are the kernel's binary64 [float]s, and a raised exception
    is the [Err] branch of [result].  The geodesic solver ([pyproj.Geod.inv])
    is a library outside the repository and is a [Variable] of the sections
    that use it. *)

From Stdlib Require Import ZArith Lia List Bool Arith String Ascii Floats Uint63.
From Stdlib Require Import Sorting.Sorted Sorting.Permutation.
Import ListNotations.

Local Open Scope Z_scope.

(** ** Exceptions and results *)

(** The three messages a [ValueError] carries in this program. *)
Inductive value_error : Type :=
| InvalidIntLiteral (s : string)      (* int(s) on a malformed literal *)
| InvalidFloatLiteral (s : string)    (* float(s) on a malformed literal *)
| AirportNotFound (icao_ident : string).  (* raised by get_data / nearest_airports *)

Inductive exn : Type :=
| ValueError (why : value_error)
| IndexError                          (* list index out of range *)
| AttributeError.                     (* attribute access on None *)

Inductive result (A : Type) : Type :=
| Ok (a : A)
| Err (e : exn).
Arguments Ok {A} a.
Arguments Err {A} e.

Definition bind {A B : Type} (r : result A) (k : A -> result B) : result B :=
  match r with
  | Ok a => k a
  | Err e => Err e
  end.

Notation "x <- r ;; k" := (bind r (fun x => k))
  (at level 61, r at next level, right associativity).

Definition is_ok {A : Type} (r : result A) : bool :=
  match r with Ok _ => true | Err _ => false end.

(** ** Python built-ins used by the program *)

Module Py.

(** *** Strings *)

Definition code (c : ascii) : nat := nat_of_ascii c.

(** [str.isspace] on the code points of ISO-8859-1: what [strip], [lstrip]
    and [rstrip] remove. *)
Definition isspace (c : ascii) : bool :=
  let n := code c in
  (((9 <=? n) && (n <=? 13)) || ((28 <=? n) && (n <=? 32))
   || (n =? 133) || (n =? 160))%nat.

(** The blanks [int] and [float] skip around a literal: as [isspace], but
    without the four ASCII separators 28..31. *)
Definition isnumspace (c : ascii) : bool :=
  let n := code c in
  (((9 <=? n) && (n <=? 13)) || (n =? 32) || (n =? 133) || (n =? 160))%nat.

(** [s.lstrip()] *)
Fixpoint lstrip_by (sp : ascii -> bool) (s : string) : string :=
  match s with
  | EmptyString => EmptyString
  | String c s' => if sp c then lstrip_by sp s' else s
  end.

(** [s.rstrip()] *)
Fixpoint rstrip_by (sp : ascii -> bool) (s : string) : string :=
  match s with
  | EmptyString => EmptyString
  | String c s' =>
      match rstrip_by sp s' with
      | EmptyString => if sp c then EmptyString else String c EmptyString
      | r => String c r
      end
  end.

Definition lstrip : string -> string := lstrip_by isspace.
Definition rstrip : string -> string := rstrip_by isspace.

(** [s[a:b]] for non-negative [a] and [b]: clipped to the string, never an
    error. *)
Definition slice (a b : nat) (s : string) : string := substring a (b - a) s.

(** [s[-1]]: the last character, [IndexError] on the empty string. *)
Fixpoint last_char (s : string) : result ascii :=
  match s with
  | EmptyString => Err IndexError
  | String c EmptyString => Ok c
  | String _ s' => last_char s'
  end.

(** [c in s] for a one-character [c]. *)
Fixpoint contains (c : ascii) (s : string) : bool :=
  match s with
  | EmptyString => false
  | String d s' => Ascii.eqb d c || contains c s'
  end.

(** The cut at the last occurrence of [sep], when there is one. *)
Fixpoint rcut (sep : ascii) (s : string) : option (string * string) :=
  match s with
  | EmptyString => None
  | String c s' =>
      match rcut sep s' with
      | Some (a, b) => Some (String c a, b)
      | None => if Ascii.eqb c sep then Some (EmptyString, s') else None
      end
  end.

(** [s.rsplit(sep, 1)]: two pieces around the last [sep], or [s] alone. *)
Definition rsplit1 (sep : ascii) (s : string) : list string :=
  match rcut sep s with
  | Some (a, b) => [a; b]
  | None => [s]
  end.

(** [s.upper()].  Lower-case letters of ISO-8859-1 go to their capitals and
    the sharp s to "SS".  The capitals of the micro sign (181) and of y with
    diaeresis (255) lie outside ISO-8859-1; no other character has them as
    capital, so leaving these two in place keeps the comparison
    [a.upper() == b.upper()] unchanged on ISO-8859-1 text. *)
Definition upper_char (c : ascii) : string :=
  let n := code c in
  if ((97 <=? n) && (n <=? 122))%nat then String (ascii_of_nat (n - 32)) EmptyString
  else if (n =? 223)%nat then "SS"%string
  else if ((224 <=? n) && (n <=? 254) && negb (n =? 247))%nat
       then String (ascii_of_nat (n - 32)) EmptyString
  else String c EmptyString.

Fixpoint upper (s : string) : string :=
  match s with
  | EmptyString => EmptyString
  | String c s' => (upper_char c ++ upper s')%string
  end.

(** *** int(str) *)

Definition isdigit (c : ascii) : bool :=
  let n := code c in ((48 <=? n) && (n <=? 57))%nat.

Definition digit_value (c : ascii) : Z := Z.of_nat (code c - 48).

(** The rest of a digit group once a digit has been read: digits, each
    optionally preceded by one underscore.  Returns the accumulated value,
    the number of digits read and what follows the group. *)
Fixpoint digits_rest (acc : Z) (n : Z) (s : string) : Z * Z * string :=
  match s with
  | String c s' =>
      if isdigit c then digits_rest (10 * acc + digit_value c) (n + 1) s'
      else if Ascii.eqb c "_" then
        match s' with
        | String d s'' =>
            if isdigit d then digits_rest (10 * acc + digit_value d) (n + 1) s''
            else (acc, n, s)
        | EmptyString => (acc, n, s)
        end
      else (acc, n, s)
  | EmptyString => (acc, n, s)
  end.

(** A digit group continuing the value [acc]; [None] when [s] does not start
    with a digit. *)
Definition digit_group (acc : Z) (s : string) : option (Z * Z * string) :=
  match s with
  | String c s' =>
      if isdigit c then Some (digits_rest (10 * acc + digit_value c) 1 s')
      else None
  | EmptyString => None
  end.

Definition strip_num (s : string) : string :=
  rstrip_by isnumspace (lstrip_by isnumspace s).

(** An optional sign: [true] for "-". *)
Definition split_sign (s : string) : bool * string :=
  match s with
  | String "+" r => (false, r)
  | String "-" r => (true, r)
  | _ => (false, s)
  end.

(** [int(s)] in base 10: [None] stands for the [ValueError]. *)
Definition int (s : string) : option Z :=
  let '(neg, r) := split_sign (strip_num s) in
  match digit_group 0 r with
  | Some (v, _, EmptyString) => Some (if neg then - v else v)
  | _ => None
  end.

(** *** float *)

(** The binary64 value nearest to [n / d] (ties to even) for [n >= 0] and
    [d > 0]; infinity on overflow. *)
Definition round_ratio (n d : Z) : float :=
  if n <=? 0 then PrimFloat.zero
  else
    let a := Z.log2 n - Z.log2 d in
    (* k = floor (log2 (n/d)) is a or a - 1 *)
    let k := if Z.shiftl d (Z.max a 0) <=? Z.shiftl n (Z.max (- a) 0)
             then a else a - 1 in
    let e := Z.max (k - 52) (-1074) in
    let num := Z.shiftl n (Z.max (- e) 0) in
    let den := Z.shiftl d (Z.max e 0) in
    let q := num / den in
    let r := num mod den in
    let q' := if (2 * r <? den) then q
              else if (den <? 2 * r) then q + 1
              else if Z.even q then q else q + 1 in
    FloatOps.Z.ldexp (PrimFloat.of_uint63 (Uint63.of_Z q')) e.

(** [float(z)] for a Python int [z] (also the conversion in [z + x] and
    [z / x] with a float [x]). *)
Definition float_of_int (z : Z) : float :=
  if z <? 0 then PrimFloat.opp (round_ratio (- z) 1) else round_ratio z 1.

(** The value of the decimal [m * 10^e], [m >= 0]. *)
Definition float_of_decimal (m e : Z) : float :=
  if 0 <=? e then round_ratio (m * 10 ^ e) 1 else round_ratio m (10 ^ (- e)).

Definition lower_ascii (c : ascii) : ascii :=
  let n := code c in
  if ((65 <=? n) && (n <=? 90))%nat then ascii_of_nat (n + 32) else c.

Fixpoint lower_ascii_str (s : string) : string :=
  match s with
  | EmptyString => EmptyString
  | String c s' => String (lower_ascii c) (lower_ascii_str s')
  end.

(** An optional exponent part: [e], an optional sign and a digit group. *)
Definition exponent_part (s : string) : option Z :=
  match s with
  | EmptyString => Some 0
  | String c r =>
      if Ascii.eqb (lower_ascii c) "e" then
        let '(neg, r') := split_sign r in
        match digit_group 0 r' with
        | Some (v, _, EmptyString) => Some (if neg then - v else v)
        | _ => None
        end
      else None
  end.

(** The unsigned body of a float literal: [inf], [infinity], [nan], or a decimal
    with an optional fraction and exponent (at least one digit before the
    exponent). *)
Definition float_body (s : string) : option float :=
  let l := lower_ascii_str s in
  if (String.eqb l "inf" || String.eqb l "infinity")%bool then Some PrimFloat.infinity
  else if String.eqb l "nan" then Some PrimFloat.nan
  else
    let '(ip, ni, r1) :=
      match digit_group 0 s with
      | Some x => x
      | None => (0, 0, s)
      end in
    let '(m, nf, r2) :=
      match r1 with
      | String "." r =>
          match digit_group ip r with
          | Some x => x
          | None => (ip, 0, r)
          end
      | _ => (ip, 0, r1)
      end in
    if (ni + nf =? 0) then None
    else
      match exponent_part r2 with
      | Some ex => Some (float_of_decimal m (ex - nf))
      | None => None
      end.

(** [float(s)]: [None] stands for the [ValueError]. *)
Definition float (s : string) : option PrimFloat.float :=
  let '(neg, r) := split_sign (strip_num s) in
  match float_body r with
  | Some x => Some (if neg then PrimFloat.opp x else x)
  | None => None
  end.

(** *** Truthiness of a float ([if x:]) *)
Definition truthy (x : PrimFloat.float) : bool := negb (PrimFloat.eqb x 0%float).

(** *** sorted and slicing *)

Section Sorted.
Context {A : Type}.
Variable key : A -> PrimFloat.float.

(** [sorted(l, key=key)] compares keys with [<] only and is stable: an
    element goes in front of the first one whose key is not below its own.
    (The model is Python's result whenever no key is a NaN.) *)
Fixpoint insert (x : A) (l : list A) : list A :=
  match l with
  | [] => [x]
  | y :: l' =>
      if PrimFloat.ltb (key y) (key x) then y :: insert x l' else x :: l
  end.

Fixpoint sorted (l : list A) : list A :=
  match l with
  | [] => []
  | x :: l' => insert x (sorted l')
  end.
End Sorted.

(** [len(l)] *)
Definition len {A : Type} (l : list A) : Z := Z.of_nat (List.length l).

(** [l[:k]]: the first [k] elements, and for a negative [k] all but the last
    [-k]. *)
Definition slice_to {A : Type} (k : Z) (l : list A) : list A :=
  if k <? 0 then firstn (Z.to_nat (len l + k)) l else firstn (Z.to_nat k) l.

End Py.

Local Open Scope string_scope.

(** ** The data model: [Runway.py] and [Airport.py]

    Both classes are built field by field; the records hold the fields as the
    parser leaves them.  [boundary_artcc] is never assigned and stays [None]. *)

Module Runway.
Record Runway : Type := mk {
  rwy_ident : string;
  length : string;
  width : string;
  surface : string;
  cond : string;
  TORA : string;
  TODA : string;
  ASDA : string;
  LDA : string
}.
End Runway.

Module Airport.
Record Airport : Type := mk {
  icao_ident : string;
  location : float * float;          (* [latitude, longitude] *)
  facility_type : string;
  region_code : string;
  state : string;
  county : string;
  city : string;
  facility_name : string;
  owner_type : string;
  facility_use : string;
  elevation : string;
  traffic_patt_alt : string;
  sectional : string;
  boundary_artcc : option string;
  responsible_artcc : string;
  rwys : list Runway.Runway
}.

(** [__str__] *)
Definition str (a : Airport) : string := icao_ident a.
End Airport.

(** ** [geopy.units.degrees]

    [degrees(radians=0, arcminutes=0, arcseconds=0)] starts from [0.] and adds
    [arcminutes / 60.] and [arcseconds / 3600.], each only when its argument
    is truthy.  The program always passes [radians = 0]. *)
Definition degrees (arcminutes : Z) (arcseconds : float) : float :=
  let deg := 0%float in
  let deg := if (arcminutes =? 0)%Z then deg
             else (deg + Py.float_of_int arcminutes / 60)%float in
  let deg := if Py.truthy arcseconds then (deg + arcseconds / 3600)%float
             else deg in
  deg.

(** [int(s)] and [float(s)] as steps of the program. *)
Definition int_ (s : string) : result Z :=
  match Py.int s with
  | Some z => Ok z
  | None => Err (ValueError (InvalidIntLiteral s))
  end.

Definition float_ (s : string) : result float :=
  match Py.float s with
  | Some x => Ok x
  | None => Err (ValueError (InvalidFloatLiteral s))
  end.

(** The record-type tag of a line: [line[0:3]]. *)
Definition tag (line : string) : string := Py.slice 0 3 line.

(** ** [AeroData.py] *)

Module AeroData.

(** [convertToDeg(coords)] with [coords = [s1, s2]]. *)
Definition convertToDeg (s1 s2 : string) : result (float * float) :=
  d1 <- int_ (Py.slice 0 2 s1) ;;
  m1 <- int_ (Py.slice 3 5 s1) ;;
  x1 <- float_ (Py.slice 6 13 s1) ;;
  let a := (Py.float_of_int d1 + degrees m1 x1)%float in
  h1 <- Py.last_char s1 ;;
  let a := if Ascii.eqb h1 "S" then (- a)%float else a in
  d2 <- int_ (Py.slice 0 3 s2) ;;
  m2 <- int_ (Py.slice 4 6 s2) ;;
  x2 <- float_ (Py.slice 7 14 s2) ;;
  let b := (Py.float_of_int d2 + degrees m2 x2)%float in
  h2 <- Py.last_char s2 ;;
  let b := if Ascii.eqb h2 "W" then (- b)%float else b in
  Ok (a, b).

(** The body of [if lines[i+n][0:3]=='RWY':], building one runway from the
    line. *)
Definition decode_runway (line : string) : Runway.Runway :=
  let rwy_ident := Py.rstrip (Py.slice 16 23 line) in
  let surf_cond := Py.rstrip (Py.slice 32 44 line) in
  let '(surface, cond) :=
    if Py.contains "-" surf_cond then
      match Py.rsplit1 "-" surf_cond with
      | [a; b] => (a, b)
      | _ => (surf_cond, "")   (* not reached: the token holds a hyphen *)
      end
    else (surf_cond, "") in
  {| Runway.rwy_ident := rwy_ident;
     Runway.length := Py.lstrip (Py.slice 23 28 line);
     Runway.width := Py.lstrip (Py.slice 28 32 line);
     Runway.surface := surface;
     Runway.cond := cond;
     Runway.TORA := Py.lstrip (Py.slice 698 703 line);
     Runway.TODA := Py.lstrip (Py.slice 703 708 line);
     Runway.ASDA := Py.lstrip (Py.slice 708 713 line);
     Runway.LDA := Py.lstrip (Py.slice 713 718 line) |}.

(** The boundary test of the [while]: the loop runs while the tag is none of
    these. *)
Definition is_boundary (line : string) : bool :=
  String.eqb (tag line) "RMK" || String.eqb (tag line) "APT"
  || String.eqb (tag line) "ARR".

(** The [while] loop.  [rest] holds [lines[i+1:]], so that its head is
    [lines[i+n]]; indexing past the end raises [IndexError]. *)
Fixpoint scan_runways (rest : list string) (rwys : list Runway.Runway)
  : result (list Runway.Runway) :=
  match rest with
  | [] => Err IndexError
  | line :: rest' =>
      if is_boundary line then Ok rwys
      else if String.eqb (tag line) "RWY"
           then scan_runways rest' (rwys ++ [decode_runway line])
           else scan_runways rest' rwys
  end.

(** The scalar fields of a facility, read from [lines[i]] alone (with an empty
    runway list, as [Airport.__init__] leaves it). *)
Definition decode_facility (line : string) : result Airport.Airport :=
  let icao_ident := Py.rstrip (Py.slice 27 31 line) in
  let icao_ident :=
    if (String.length icao_ident =? 3)%nat then "K" ++ icao_ident
    else icao_ident in
  location <- convertToDeg (Py.slice 523 537 line) (Py.slice 550 565 line) ;;
  let responsible_artcc := Py.rstrip (Py.slice 674 678 line) in
  let responsible_artcc :=
    if (String.length responsible_artcc =? 3)%nat then "K" ++ responsible_artcc
    else responsible_artcc in
  Ok {| Airport.icao_ident := icao_ident;
        Airport.location := location;
        Airport.facility_type := Py.rstrip (Py.slice 14 27 line);
        Airport.region_code := Py.slice 41 44 line;
        Airport.state := Py.rstrip (Py.slice 50 70 line);
        Airport.county := Py.rstrip (Py.slice 70 91 line);
        Airport.city := Py.rstrip (Py.slice 93 133 line);
        Airport.facility_name := Py.rstrip (Py.slice 133 183 line);
        Airport.owner_type := Py.slice 183 185 line;
        Airport.facility_use := Py.slice 185 187 line;
        Airport.elevation := Py.lstrip (Py.slice 578 585 line);
        Airport.traffic_patt_alt := Py.lstrip (Py.slice 593 597 line);
        Airport.sectional := Py.rstrip (Py.slice 597 627 line);
        Airport.boundary_artcc := None;
        Airport.responsible_artcc := responsible_artcc;
        Airport.rwys := [] |}.

Definition with_rwys (a : Airport.Airport) (r : list Runway.Runway)
  : Airport.Airport :=
  {| Airport.icao_ident := Airport.icao_ident a;
     Airport.location := Airport.location a;
     Airport.facility_type := Airport.facility_type a;
     Airport.region_code := Airport.region_code a;
     Airport.state := Airport.state a;
     Airport.county := Airport.county a;
     Airport.city := Airport.city a;
     Airport.facility_name := Airport.facility_name a;
     Airport.owner_type := Airport.owner_type a;
     Airport.facility_use := Airport.facility_use a;
     Airport.elevation := Airport.elevation a;
     Airport.traffic_patt_alt := Airport.traffic_patt_alt a;
     Airport.sectional := Airport.sectional a;
     Airport.boundary_artcc := Airport.boundary_artcc a;
     Airport.responsible_artcc := Airport.responsible_artcc a;
     Airport.rwys := r |}.

(** The [for i in range(len(lines))] loop over the lines from position [i]
    on: [line] is [lines[i]] and [rest] is [lines[i+1:]]. *)
Fixpoint parse_from (lines : list string) : result (list Airport.Airport) :=
  match lines with
  | [] => Ok []
  | line :: rest =>
      if String.eqb (tag line) "APT" then
        apt <- decode_facility line ;;
        rwys <- scan_runways rest (Airport.rwys apt) ;;
        airports <- parse_from rest ;;
        Ok (with_rwys apt rwys :: airports)
      else parse_from rest
  end.

(** [parseAirports(filename)], on the lines read from the file. *)
Definition parseAirports (lines : list string) : result (list Airport.Airport) :=
  parse_from lines.

(** *** The query *)

Section Query.
(** [Geod(ellps='WGS84').inv(lon1, lat1, lon2, lat2)], returning
    [(fwd_az, back_az, dist)] with [dist] in metres. *)
Variable inv : float -> float -> float -> float -> float * float * float.

(** The first loop: the first airport whose identifier equals [myAptIdent]. *)
Fixpoint find_apt (apts : list Airport.Airport) (myAptIdent : string)
  : option Airport.Airport :=
  match apts with
  | [] => None
  | a :: rest =>
      if String.eqb (Airport.icao_ident a) myAptIdent then Some a
      else find_apt rest myAptIdent
  end.

(** The loop over [a.rwys], from the running maximum [l]. *)
Fixpoint longest (rwys : list Runway.Runway) (l : Z) : result Z :=
  match rwys with
  | [] => Ok l
  | r :: rest =>
      if negb (String.eqb (Runway.surface r) "WATER")
         && negb (String.eqb (Runway.surface r) "TURF")
      then n <- int_ (Runway.length r) ;; longest rest (Z.max l n)
      else longest rest l
  end.

(** One element [[a, fwd_az, dist]] of the result. *)
Definition entry : Type := Airport.Airport * float * float.

Definition bearing (e : entry) : float := snd (fst e).
Definition range (e : entry) : float := snd e.
Definition facility (e : entry) : Airport.Airport := fst (fst e).

(** The geodesic part of the loop body for the airport [a]. *)
Definition measure (myLoc : float * float) (a : Airport.Airport) : entry :=
  let '(fwd_az, back_az, dist) :=
    inv (snd myLoc) (fst myLoc)
        (snd (Airport.location a)) (fst (Airport.location a)) in
  let dist := (dist / 1852)%float in
  let fwd_az := if (fwd_az <? 0)%float then (fwd_az + 360)%float else fwd_az in
  (a, fwd_az, dist).

(** The second loop: the list [nearestApts] it builds. *)
Fixpoint candidates (myLoc : float * float) (apts : list Airport.Airport)
  : result (list entry) :=
  match apts with
  | [] => Ok []
  | a :: rest =>
      l <- longest (Airport.rwys a) 0 ;;
      let e := measure myLoc a in
      tail <- candidates myLoc rest ;;
      Ok (if (8000 <=? l)%Z && (range e <? 1000)%float then e :: tail
          else tail)
  end.

(** [nearestApts(aptID, num)]; the parameter [getCenters] is not used by
    the method. *)
Definition nearestApts (apts : list Airport.Airport) (aptID : string)
  (num : Z) : result (list entry) :=
  match find_apt apts aptID with
  | None => Err AttributeError        (* myApt.location with myApt = None *)
  | Some myApt =>
      let myLoc := Airport.location myApt in
      found <- candidates myLoc apts ;;
      let nearestApts_reordered := Py.sorted range found in
      Ok (Py.slice_to (Z.min num (Py.len nearestApts_reordered))
                      nearestApts_reordered)
  end.
End Query.

End AeroData.

(** ** [AvData.py] *)

Module AvData.

(** [__convert_to_deg] and [__parse_airports] have the text of
    [AeroData.convertToDeg] and [AeroData.parseAirports]. *)
Definition __convert_to_deg : string -> string -> result (float * float) :=
  AeroData.convertToDeg.
Definition __parse_airports : list string -> result (list Airport.Airport) :=
  AeroData.parseAirports.

(** What [nearest_airports] returns: airport objects and strings. *)
Inductive item : Type :=
| Facility (a : Airport.Airport)
| Text (s : string).

Section Query.
Variable inv : float -> float -> float -> float -> float * float * float.

(** The search loop of [get_data] and [nearest_airports]. *)
Fixpoint find_airport (airports : list Airport.Airport) (icao_ident : string)
  : option Airport.Airport :=
  match airports with
  | [] => None
  | a :: rest =>
      if String.eqb (Py.upper (Airport.icao_ident a)) (Py.upper icao_ident)
      then Some a
      else find_airport rest icao_ident
  end.

(** [get_data(icao_ident)], once the catalog is loaded. *)
Definition get_data (airports : list Airport.Airport) (icao_ident : string)
  : result Airport.Airport :=
  match find_airport airports icao_ident with
  | Some airport_data => Ok airport_data
  | None => Err (ValueError (AirportNotFound icao_ident))
  end.

(** The loop over [apt.rwys], from the running maximum. *)
Fixpoint longest (rwys : list Runway.Runway) (shortest_runway : Z) : result Z :=
  match rwys with
  | [] => Ok shortest_runway
  | rwy :: rest =>
      if negb (String.eqb (Runway.surface rwy) "WATER")
         && negb (String.eqb (Runway.surface rwy) "TURF")
      then n <- int_ (Runway.length rwy) ;;
           longest rest (Z.max shortest_runway n)
      else longest rest shortest_runway
  end.

(** The loop [for apt in self.airports].  Its body reads [a], the variable
    the search loop left bound to the selected airport, where the loop
    variable is [apt]. *)
Fixpoint collect (a : Airport.Airport) (current_loc : float * float)
  (min_rwy_length : Z) (airports : list Airport.Airport)
  : result (list (Airport.Airport * float)) :=
  match airports with
  | [] => Ok []
  | apt :: rest =>
      shortest_runway <- longest (Airport.rwys apt) 0 ;;
      let '(fwd_az, back_az, dist) :=
        inv (snd current_loc) (fst current_loc)
            (snd (Airport.location a)) (fst (Airport.location a)) in
      tail <- collect a current_loc min_rwy_length rest ;;
      Ok (if (min_rwy_length <=? shortest_runway)%Z then (a, dist) :: tail
          else tail)
  end.

(** [apts_sorted] after the truncation. *)
Definition select (airports : list Airport.Airport) (icao_ident : string)
  (num min_rwy_length : Z) : result (list (Airport.Airport * float)) :=
  match find_airport airports icao_ident with
  | None => Err (ValueError (AirportNotFound icao_ident))
  | Some selected_aiport =>
      let current_loc := Airport.location selected_aiport in
      nearest <- collect selected_aiport current_loc min_rwy_length airports ;;
      let apts_sorted := Py.sorted snd nearest in
      Ok (Py.slice_to (Z.min num (Py.len apts_sorted)) apts_sorted)
  end.

(** The loop that gathers the distinct responsible centers. *)
Fixpoint gather_centers (apts_sorted : list (Airport.Airport * float))
  (centers : list string) : list string :=
  match apts_sorted with
  | [] => centers
  | apt :: rest =>
      if existsb (String.eqb (Airport.responsible_artcc (fst apt))) centers
      then gather_centers rest centers
      else gather_centers rest
             (centers ++ [Airport.responsible_artcc (fst apt)])
  end.

(** [nearest_airports(icao_ident, num, min_rwy_length, return_string,
    get_centers)], once the catalog is loaded. *)
Definition nearest_airports (airports : list Airport.Airport)
  (icao_ident : string) (num min_rwy_length : Z)
  (return_string get_centers : bool) : result (list item) :=
  apts_sorted <- select airports icao_ident num min_rwy_length ;;
  let centers := if get_centers then gather_centers apts_sorted [] else [] in
  if return_string
  then Ok (map (fun a => Text (Airport.str (fst a))) apts_sorted
           ++ map Text centers)%list
  else Ok (map (fun a => Facility (fst a)) apts_sorted
           ++ map Text centers)%list.

(** [bearing_range(icao_ident_origin, icao_ident_dest)] *)
Definition bearing_range (airports : list Airport.Airport)
  (icao_ident_origin icao_ident_dest : string) : result (float * float) :=
  origin <- get_data airports icao_ident_origin ;;
  destination <- get_data airports icao_ident_dest ;;
  let '(fwd_az, back_az, dist) :=
    inv (snd (Airport.location origin)) (fst (Airport.location origin))
        (snd (Airport.location destination))
        (fst (Airport.location destination)) in
  let fwd_az := if (fwd_az <? 0)%float then (360 + fwd_az)%float else fwd_az in
  let dist := (dist / 1852)%float in
  Ok (fwd_az, dist).
End Query.

End AvData.

(** ** The dataset cycle: [generateURL] / [__generate_URL]

    Both modules carry the same method.  A [datetime] is the number of
    microseconds since the anchor, 2020-10-08 00:00:00; [strftime] with the
    format "%Y-%m-%d" is the library's and a parameter. *)

Module Cycle.

Definition timedelta_days (days : Z) : Z := days * 86400 * 1000000.

(** [datetime.max], 9999-12-31 23:59:59.999999. *)
Definition datetime_max : Z := 251800185599999999.

(** What the loop ends with: a start date, or the [OverflowError] of a
    [datetime] past [datetime.max]. *)
Inductive outcome : Type :=
| Returned (start_date : Z)
| OverflowError.

(** The [while t>current_end_date] loop; [None] when the fuel runs out. *)
Fixpoint advance (fuel : nat) (t start_date current_end_date : Z)
  : option outcome :=
  match fuel with
  | O => None
  | S fuel' =>
      if (current_end_date <? t)%Z then
        let start_date := current_end_date in
        if (datetime_max <? start_date + timedelta_days 28)%Z
        then Some OverflowError
        else advance fuel' t start_date (start_date + timedelta_days 28)
      else Some (Returned start_date)
  end.

Section URL.
Variable strftime : Z -> string.

(** [generateURL()] with [t = datetime.today()]. *)
Definition generateURL (fuel : nat) (t : Z) : option (option string) :=
  let start_date := 0 in
  let current_end_date := start_date + timedelta_days 28 in
  match advance fuel t start_date current_end_date with
  | None => None
  | Some OverflowError => Some None
  | Some (Returned start_date) =>
      let date_str := strftime start_date in
      let start_str :=
        "https://nfdc.faa.gov/webContent/28DaySub/28DaySubscription_Effective_" in
      let end_str := ".zip" in
      Some (Some (start_str ++ date_str ++ end_str))
  end.
End URL.

End Cycle.

(** ** [Notam.py]: [getNotams], and the same loop in [AvData.notams]

    The loop runs over the texts of the table cells the page holds (the
    request and the HTML parser are outside the model). *)

Module Notam.

(** [s.strip()] *)
Definition strip (s : string) : string := Py.lstrip (Py.rstrip s).

(** [s.replace(a, b)] for one-character [a] and [b]. *)
Fixpoint replace (a b : ascii) (s : string) : string :=
  match s with
  | EmptyString => EmptyString
  | String c s' => String (if Ascii.eqb c a then b else c) (replace a b s')
  end.

(** [s.split(sep, 1)[1]]: what follows the first [sep]; [IndexError] when
    there is none. *)
Fixpoint after_first (sep : ascii) (s : string) : result string :=
  match s with
  | EmptyString => Err IndexError
  | String c s' => if Ascii.eqb c sep then Ok s' else after_first sep s'
  end.

(** [s.split()]: the maximal runs of non-blank characters; [word] is the run
    being read. *)
Fixpoint split_blank (s : string) (word : string) : list string :=
  match s with
  | EmptyString => match word with EmptyString => [] | _ => [word] end
  | String c s' =>
      if Py.isspace c then
        match word with
        | EmptyString => split_blank s' EmptyString
        | _ => word :: split_blank s' EmptyString
        end
      else split_blank s' (word ++ String c EmptyString)
  end.

(** [sep.join(l)] *)
Fixpoint join (sep : string) (l : list string) : string :=
  match l with
  | [] => EmptyString
  | [x] => x
  | x :: l' => x ++ sep ++ join sep l'
  end.

Definition newline : ascii := ascii_of_nat 10.

(** The loop over [notam_list_html], on the cells' texts. *)
Fixpoint collect (texts : list string) (notam_list : list string)
  : result (list string) :=
  match texts with
  | [] => Ok notam_list
  | text :: rest =>
      if negb (String.eqb (strip text) "")
         && negb (existsb (String.eqb (strip text)) notam_list)
         && Py.contains "-" text
      then
        tail <- after_first "-" (replace newline " " text) ;;
        collect rest (notam_list ++ [strip tail])
      else if negb (String.eqb (strip text) "")
              && negb (existsb (String.eqb (strip text)) notam_list)
      then
        collect rest
          (notam_list
             ++ [join " " (split_blank (strip (replace newline " " text)) "")])
      else collect rest notam_list
  end.

Definition getNotams (texts : list string) : result (list string) :=
  collect texts [].

End Notam.

(** ** [Preflight.py] *)

Module Preflight.

Definition home_airport : string := "KVPS".

Section Preflight.
Variable inv : float -> float -> float -> float -> float * float * float.
(** [Notam.getNotams] and [AvWeather.getMetarTaf] as the answers of the two
    sites; [report] is the [[metar,taf,timestamp]] of the latter. *)
Variable getNotams : string -> list string.
Variable report : Type.
Variable getMetarTaf : string -> report.

(** [__init__]: [self.apts], from the catalog [AeroData()] has loaded.  The
    query is made for the module's [home_airport]. *)
Definition init (catalog : list Airport.Airport) (icao_ident : string)
  (num_airports : Z) : result (list AeroData.entry) :=
  AeroData.nearestApts inv catalog home_airport num_airports.

(** The second loop of [nearestAptNotams]: the centers not yet listed. *)
Fixpoint add_centers (apts : list AeroData.entry) (facility_str : list string)
  : list string :=
  match apts with
  | [] => facility_str
  | apt :: rest =>
      if existsb (String.eqb (Airport.responsible_artcc (AeroData.facility apt)))
                 facility_str
      then add_centers rest facility_str
      else add_centers rest
             (facility_str
                ++ [Airport.responsible_artcc (AeroData.facility apt)])
  end.

(** [self.facility_str] after [nearestAptNotams]. *)
Definition facility_str (apts : list AeroData.entry) : list string :=
  add_centers apts (map (fun apt => Airport.str (AeroData.facility apt)) apts).

(** [nearestAptNotams()] *)
Definition nearestAptNotams (apts : list AeroData.entry)
  : list (string * list string) :=
  map (fun s => (s, getNotams s)) (facility_str apts).

(** [nearestAptWx()] *)
Definition nearestAptWx (apts : list AeroData.entry) : list report :=
  map (fun apt => getMetarTaf (Airport.str (AeroData.facility apt))) apts.
End Preflight.

End Preflight.

(** ** [AvWeather.py]: [getMetarTaf], and [AvData.metar] / [AvData.taf]

    The methods read the texts of the page's [code] elements (the request
    and the HTML parser are outside the model). *)

Module AvWeather.

(** The no-break space, [u'\xa0']. *)
Definition nbsp : ascii := ascii_of_nat 160.

(** [s.split(sep)] for a one-character [sep]; [piece] is the piece being
    read. *)
Fixpoint split (sep : ascii) (s piece : string) : list string :=
  match s with
  | EmptyString => [piece]
  | String c s' =>
      if Ascii.eqb c sep then piece :: split sep s' EmptyString
      else split sep s' (piece ++ String c EmptyString)
  end.

(** The test of [filter(None, l)] on a string: it is not empty. *)
Definition nonempty (t : string) : bool := negb (String.eqb t EmptyString).

(** The lines made of the text of the second [code] element. *)
Definition taf_of (text : string) : list string :=
  let taf_unprocessed := split nbsp text EmptyString in
  let taf_unprocessed := filter nonempty taf_unprocessed in
  map Notam.strip taf_unprocessed.

Section Page.
Variable timestamp : Type.

(** [getMetarTaf(icao_ident)] on the page's [code] texts and [strong]
    elements. *)
Definition getMetarTaf (wx_data : list string) (strong : timestamp)
  : string * list string * timestamp :=
  let metar := match wx_data with m :: _ => m | [] => EmptyString end in
  let taf := match wx_data with _ :: t :: _ => taf_of t | _ => [] end in
  (metar, taf, strong).
End Page.

End AvWeather.

(** ** [AvData.metar] and [AvData.taf], on the same page *)

Module AvDataWx.

Definition quote : string := String (ascii_of_nat 34) EmptyString.

(** [metar(icao_ident)] *)
Definition metar (icao_ident : string) (wx_data : list string) : string :=
  match wx_data with
  | m :: _ => m
  | [] => quote ++ icao_ident ++ quote ++ " has no weather data."
  end.

(** [taf(icao_ident)]: a message or the lines; the three statements that
    make the lines are those of [getMetarTaf]. *)
Definition taf (icao_ident : string) (wx_data : list string)
  : string + list string :=
  match wx_data with
  | [] => inl (quote ++ icao_ident ++ quote ++ " has no weather data.")
  | [_] => inl (quote ++ icao_ident ++ quote ++ " has no TAF.")
  | _ :: t :: _ => inr (AvWeather.taf_of t)
  end.

End AvDataWx.

(** ** The words of the specification

    Definitions that follow the specification's wording, to be compared with
    the ones from the source. *)

Module Spec.

(** A runway whose surface is neither "WATER" nor "TURF". *)
Definition paved (r : Runway.Runway) : bool :=
  negb (String.eqb (Runway.surface r) "WATER")
  && negb (String.eqb (Runway.surface r) "TURF").

(** The length of a runway as a number (0 when the text is no integer). *)
Definition length_value (r : Runway.Runway) : Z :=
  match Py.int (Runway.length r) with
  | Some n => n
  | None => 0
  end.

(** Usable runway length: the maximum length among the paved runways, 0 when
    there is none. *)
Definition usable_runway_length (a : Airport.Airport) : Z :=
  fold_right Z.max 0 (map length_value (filter paved (Airport.rwys a))).

(** Every paved runway of every facility has a length that [int] reads. *)
Definition lengths_parse (apts : list Airport.Airport) : Prop :=
  Forall (fun a =>
    Forall (fun r => paved r = true -> Py.int (Runway.length r) <> None)
           (Airport.rwys a)) apts.

(** Identifier normalisation: "K" in front of a 3-character code. *)
Definition normalize (code : string) : string :=
  if (String.length code =? 3)%nat then "K" ++ code else code.

(** The lines scanned for a facility: those before the first boundary
    marker. *)
Fixpoint block (rest : list string) : list string :=
  match rest with
  | [] => []
  | line :: rest' =>
      if AeroData.is_boundary line then [] else line :: block rest'
  end.

(** The runways of a block: its "RWY" lines, decoded, in order. *)
Definition runways_of (rest : list string) : list Runway.Runway :=
  map AeroData.decode_runway
      (filter (fun line => String.eqb (tag line) "RWY") (block rest)).

(** The positions of the facility lines. *)
Definition facility_positions (lines : list string) : list nat :=
  filter (fun i => String.eqb (tag (nth i lines "")) "APT")
         (seq 0 (List.length lines)).

(** What the parser makes of the facility line at position [i]: the scalar
    fields come from that line alone, the runways from its block. *)
Definition decoded_at (lines : list string) (i : nat)
  (a : Airport.Airport) : Prop :=
  exists a0, AeroData.decode_facility (nth i lines "") = Ok a0 /\
    a = AeroData.with_rwys a0 (runways_of (skipn (S i) lines)).

(** The scan of the facility at position [i] meets a boundary marker. *)
Definition bounded (lines : list string) (i : nat) : Prop :=
  Exists (fun line => AeroData.is_boundary line = true) (skipn (S i) lines).

Section Query.
Variable inv : float -> float -> float -> float -> float * float * float.

(** The filter of [nearestApts]: usable length at least 8000 and range
    below 1000. *)
Definition qualifies (myLoc : float * float) (a : Airport.Airport) : bool :=
  (8000 <=? usable_runway_length a)%Z
  && (AeroData.range (AeroData.measure inv myLoc a) <? 1000)%float.

(** The facilities passing the filter, each with its bearing and range. *)
Definition qualifying (myLoc : float * float)
  (apts : list Airport.Airport) : list AeroData.entry :=
  map (AeroData.measure inv myLoc) (filter (qualifies myLoc) apts).
End Query.

(** *** Coordinates in the fixed-offset layout *)

(** A decimal digit. *)
Inductive dig : Type := D0 | D1 | D2 | D3 | D4 | D5 | D6 | D7 | D8 | D9.

Definition dig_val (d : dig) : Z :=
  match d with
  | D0 => 0 | D1 => 1 | D2 => 2 | D3 => 3 | D4 => 4
  | D5 => 5 | D6 => 6 | D7 => 7 | D8 => 8 | D9 => 9
  end.

Definition dig_char (d : dig) : ascii :=
  match d with
  | D0 => "0" | D1 => "1" | D2 => "2" | D3 => "3" | D4 => "4"
  | D5 => "5" | D6 => "6" | D7 => "7" | D8 => "8" | D9 => "9"
  end%char.

(** The number written by a sequence of digits, continuing [acc]. *)
Definition number_from (acc : Z) (ds : list dig) : Z :=
  fold_left (fun acc d => 10 * acc + dig_val d) ds acc.
Definition number (ds : list dig) : Z := number_from 0 ds.

Fixpoint text (ds : list dig) : string :=
  match ds with
  | [] => ""
  | d :: ds' => String (dig_char d) (text ds')
  end.

(** Latitude text [DD-MM-SS.SSSSH] and longitude text [DDD-MM-SS.SSSSH]. *)
Definition latitude_text (d1 d2 m1 m2 s1 s2 f1 f2 f3 f4 : dig) (h : ascii)
  : string :=
  text [d1; d2] ++ "-" ++ text [m1; m2] ++ "-" ++ text [s1; s2] ++ "."
    ++ text [f1; f2; f3; f4] ++ String h "".
Definition longitude_text (d1 d2 d3 m1 m2 s1 s2 f1 f2 f3 f4 : dig)
  (h : ascii) : string :=
  text [d1; d2; d3] ++ "-" ++ text [m1; m2] ++ "-" ++ text [s1; s2] ++ "."
    ++ text [f1; f2; f3; f4] ++ String h "".

(** degrees + minutes/60 + seconds/3600, in binary64 arithmetic. *)
Definition dms (degs mins : Z) (secs : float) : float :=
  (Py.float_of_int degs + (Py.float_of_int mins / 60 + secs / 3600))%float.

(** The seconds written [s1 s2 . f1 f2 f3 f4]: the binary64 value nearest
    to that decimal. *)
Definition seconds (s1 s2 f1 f2 f3 f4 : dig) : float :=
  Py.float_of_decimal (number [s1; s2; f1; f2; f3; f4]) (-4).

Definition negate_if (b : bool) (x : float) : float :=
  if b then (- x)%float else x.

(** Ascending order of ranges. *)
Definition le_range (e1 e2 : AeroData.entry) : Prop :=
  (AeroData.range e1 <=? AeroData.range e2)%float = true.

(** *** The query of [AvData] *)

(** The identifier of [a] matches [icao_ident] up to case. *)
Definition matches (icao_ident : string) (a : Airport.Airport) : Prop :=
  Py.upper (Airport.icao_ident a) = Py.upper icao_ident.

(** The filter of [nearest_airports]: usable length at least
    [min_rwy_length]. *)
Definition long_enough (min_rwy_length : Z) (apt : Airport.Airport) : bool :=
  (min_rwy_length <=? usable_runway_length apt)%Z.

(** The distance the solver gives from a facility to itself. *)
Definition self_dist
  (inv : float -> float -> float -> float -> float * float * float)
  (sel : Airport.Airport) : float :=
  snd (inv (snd (Airport.location sel)) (fst (Airport.location sel))
           (snd (Airport.location sel)) (fst (Airport.location sel))).

(** *** The dataset cycle *)

(** The length of a cycle, 28 days. *)
Definition period : Z := Cycle.timedelta_days 28.

(** The number of whole cycles that lie strictly before [t]. *)
Definition cycles_before (t : Z) : Z := Z.max 0 ((t - 1) / period).

(** *** NOTAM texts *)

(** The occurrences of a character in a string. *)
Fixpoint count (c : ascii) (s : string) : nat :=
  match s with
  | EmptyString => 0
  | String d s' => ((if Ascii.eqb d c then 1 else 0) + count c s')%nat
  end.

(** *** Preflight *)

(** The center responsible for the facility of an entry. *)
Definition center (apt : AeroData.entry) : string :=
  Airport.responsible_artcc (AeroData.facility apt).

End Spec.

(** ** Sample data

    Lines in the layout of APT.txt and a small catalog, used to run the
    definitions on concrete inputs. *)

Module Fixture.

Fixpoint blank (n : nat) : string :=
  match n with
  | O => ""
  | S n' => String " " (blank n')
  end.

(** A line with the given fields at the given columns (in increasing order),
    blanks elsewhere. *)
Fixpoint place (fields : list (nat * string)) (line : string) : string :=
  match fields with
  | [] => line
  | (col, field) :: rest =>
      place rest (line ++ blank (col - String.length line) ++ field)
  end.

Definition newline : string := String (ascii_of_nat 10) "".

Definition apt_line (ident lat lon artcc : string) : string :=
  place [(0, "APT"); (14, "AIRPORT"); (27, ident); (41, "ASO");
         (50, "FLORIDA"); (70, "OKALOOSA"); (93, "VALPARAISO");
         (133, "EGLIN AFB"); (183, "MA"); (185, "PR"); (523, lat);
         (550, lon); (578, "   87.0"); (597, "NEW ORLEANS");
         (674, artcc); (1529, newline)]%nat "".

Definition rwy_line (ident len width surf : string) : string :=
  place [(0, "RWY"); (16, ident); (23, len); (28, width); (32, surf);
         (698, "10012"); (703, "10012"); (708, " 9500"); (713, " 9500");
         (1529, newline)]%nat "".

Definition other_line (kind : string) : string :=
  place [(0, kind); (16, "SOMETHING ELSE"); (1529, newline)]%nat "".

Definition kvps_line : string :=
  apt_line "VPS" "30-28-59.4000N" "086-31-30.9000W" "ZJX".
Definition phnl_line : string :=
  apt_line "PHNL" "21-19-04.2000N" "157-55-12.5000W" "ZHN".

Definition lines : list string :=
  [ other_line "HDR";
    kvps_line;
    other_line "ATT";
    rwy_line "01/19" "10012" " 300" "ASPH-CONC-G";
    rwy_line "12/30" "12005" " 300" "CONC-G";
    other_line "RMK";
    other_line "RMK";
    phnl_line;
    rwy_line "04W/22W" " 3000" " 150" "WATER";
    rwy_line "08L/26R" "12312" " 150" "ASPH-G";
    rwy_line "XX" "  900" "  50" "TURF";
    other_line "ARR" ].

Definition rwy (ident len surf : string) : Runway.Runway :=
  {| Runway.rwy_ident := ident; Runway.length := len; Runway.width := "150";
     Runway.surface := surf; Runway.cond := "G"; Runway.TORA := "";
     Runway.TODA := ""; Runway.ASDA := ""; Runway.LDA := "" |}.

Definition apt (ident : string) (lat lon : float) (artcc : string)
  (rwys : list Runway.Runway) : Airport.Airport :=
  {| Airport.icao_ident := ident; Airport.location := (lat, lon);
     Airport.facility_type := "AIRPORT"; Airport.region_code := "ASO";
     Airport.state := ""; Airport.county := ""; Airport.city := "";
     Airport.facility_name := ident; Airport.owner_type := "PU";
     Airport.facility_use := "PU"; Airport.elevation := "";
     Airport.traffic_patt_alt := ""; Airport.sectional := "";
     Airport.boundary_artcc := None; Airport.responsible_artcc := artcc;
     Airport.rwys := rwys |}.

(** A stand-in for the geodesic solver, enough to run the queries: the
    forward azimuth is the difference of the longitudes and one degree of
    latitude is 1852000 metres. *)
Definition flat_inv (lon1 lat1 lon2 lat2 : float) : float * float * float :=
  ((lon2 - lon1)%float, (lon1 - lon2)%float,
   (PrimFloat.abs (lat2 - lat1) * 1852000)%float).

Definition kvps : Airport.Airport :=
  apt "KVPS" 30.5 (-86.5) "KZJX" [rwy "01/19" "10012" "ASPH"; rwy "12/30" "12005" "CONC"].
Definition kpam : Airport.Airport :=
  apt "KPAM" 30.25 (-85.5) "KZJX" [rwy "14/32" "10008" "CONC"].
Definition knpa : Airport.Airport :=
  apt "KNPA" 30.375 (-87.25) "KZJX" [rwy "07/25" " 8002" "ASPH"; rwy "01/19" "7137" "ASPH"].
Definition kdts : Airport.Airport :=
  apt "KDTS" 30.4375 (-86.4375) "KZJX" [rwy "14/32" "6506" "ASPH"].
Definition lake : Airport.Airport :=
  apt "F95" 30.125 (-85.0) "KZTL" [rwy "W" "9000" "WATER"].
Definition kmia : Airport.Airport :=
  apt "KMIA" 25.75 (-80.25) "KZMA" [rwy "09/27" "13016" "ASPH"].


(** A facility with a paved runway whose length field is blank. *)
Definition kbad : Airport.Airport :=
  apt "KBAD" 30.75 (-86.0) "KZJX" [rwy "W" "" "WATER"; rwy "09/27" "" "ASPH"].

(** A solver stand-in whose forward azimuth is a tiny negative angle
    (-2^-67 degrees), one great-circle minute away. *)
Definition west_inv (lon1 lat1 lon2 lat2 : float) : float * float * float :=
  ((-0x1p-67)%float, 180%float, 1852%float).

Definition catalog : list Airport.Airport :=
  [kpam; kvps; kmia; lake; kdts; knpa].

(** The catalog the parser builds from [lines]. *)
Definition parsed : list Airport.Airport :=
  Eval vm_compute in
    match AeroData.parseAirports lines with
    | Ok airports => airports
    | Err _ => []
    end.

(** A file that ends inside the block of its last facility. *)
Definition truncated_lines : list string :=
  [ other_line "HDR"; kvps_line; other_line "ATT";
    rwy_line "01/19" "10012" " 300" "ASPH-CONC-G" ].

(** The two facilities nearest to [kvps] in [catalog] under [flat_inv]. *)
Definition nearest2 : list AeroData.entry :=
  [ AeroData.measure flat_inv (Airport.location kvps) kvps;
    AeroData.measure flat_inv (Airport.location kvps) knpa ].


(** A file whose second facility has a latitude that is no number. *)
Definition bad_coordinate_lines : list string :=
  [ other_line "HDR"; kvps_line;
    rwy_line "01/19" "10012" " 300" "ASPH-CONC-G"; other_line "RMK";
    apt_line "XXX" "3X-28-59.4000N" "086-31-30.9000W" "ZJX";
    rwy_line "12/30" "12005" " 300" "CONC-G"; other_line "ARR" ].

(** A stand-in for [strftime("%Y-%m-%d")], right on the first two cycle
    starts. *)
Definition strftime (d : Z) : string :=
  if (d =? 0)%Z then "2020-10-08" else "2020-11-05".

(** The text of a table cell of the NOTAM page. *)
Definition notam_text : string :=
  " !VPS 10/012 - RWY 12/30 CLSD EXC PPR " ++ newline.

End Fixture.

(** * Part II: lemmas and theorems *)

(** * Facts on the order of binary64 values *)

Module FloatOrder.

Definition notnan (x : float) : Prop := PrimFloat.is_nan x = false.

Lemma SFcompare_refl s : s <> S754_nan -> SFcompare s s = Some Eq.
Proof.
  destruct s as [[]|[]| |[] m e]; simpl; try congruence; intros _;
    rewrite Z.compare_refl, Pos.compare_cont_refl; reflexivity.
Qed.

Lemma notnan_spec x : notnan x <-> Prim2SF x <> S754_nan.
Proof.
  unfold notnan, PrimFloat.is_nan. rewrite FloatAxioms.eqb_spec. unfold SFeqb. split.
  - intros H E. rewrite E in H. discriminate.
  - intros H. rewrite (SFcompare_refl _ H). reflexivity.
Qed.

Ltac cmp_cases :=
  repeat match goal with
    | |- context [(?a ?= ?b)%Z] => destruct (Z.compare_spec a b); subst
    | |- context [(?a ?= ?b)%positive] => destruct (Pos.compare_spec a b); subst
    | H : context [(?a ?= ?b)%Z] |- _ => destruct (Z.compare_spec a b); subst
    | H : context [(?a ?= ?b)%positive] |- _ => destruct (Pos.compare_spec a b); subst
    end.

Lemma SFltb_asym s t : SFltb s t = true -> SFltb t s = false.
Proof.
  unfold SFltb, SFcompare.
  destruct s as [[]|[]| |[] m1 e1], t as [[]|[]| |[] m2 e2]; simpl;
    try congruence; rewrite ?Pos.compare_cont_spec; simpl;
    cmp_cases; simpl; try congruence; try lia.
Qed.

Lemma SFleb_ltb s t :
  s <> S754_nan -> t <> S754_nan -> SFleb s t = negb (SFltb t s).
Proof.
  unfold SFleb, SFltb, SFcompare.
  destruct s as [[]|[]| |[] m1 e1], t as [[]|[]| |[] m2 e2]; simpl;
    try congruence; intros _ _; rewrite ?Pos.compare_cont_spec; simpl;
    cmp_cases; simpl; try congruence; try lia.
Qed.

Lemma SFleb_trans s t u :
  SFleb s t = true -> SFleb t u = true -> SFleb s u = true.
Proof.
  unfold SFleb, SFcompare.
  destruct s as [[]|[]| |[] m1 e1], t as [[]|[]| |[] m2 e2],
           u as [[]|[]| |[] m3 e3]; simpl;
    try congruence; rewrite ?Pos.compare_cont_spec; simpl;
    cmp_cases; simpl; try congruence; try lia.
Qed.

Lemma ltb_asym x y : (x <? y)%float = true -> (y <? x)%float = false.
Proof. rewrite !FloatAxioms.ltb_spec. apply SFltb_asym. Qed.

Lemma leb_ltb x y :
  notnan x -> notnan y -> (x <=? y)%float = negb (y <? x)%float.
Proof.
  rewrite !notnan_spec, FloatAxioms.leb_spec, FloatAxioms.ltb_spec. apply SFleb_ltb.
Qed.

Lemma leb_trans x y z :
  (x <=? y)%float = true -> (y <=? z)%float = true -> (x <=? z)%float = true.
Proof. rewrite !FloatAxioms.leb_spec. apply SFleb_trans. Qed.

Lemma leb_refl x : notnan x -> (x <=? x)%float = true.
Proof.
  rewrite notnan_spec, FloatAxioms.leb_spec. unfold SFleb. intros H.
  rewrite (SFcompare_refl _ H). reflexivity.
Qed.

Lemma ltb_leb x y : (x <? y)%float = true -> (x <=? y)%float = true.
Proof.
  rewrite FloatAxioms.ltb_spec, FloatAxioms.leb_spec. unfold SFltb, SFleb.
  destruct (SFcompare _ _) as [[]|]; congruence.
Qed.

Lemma ltb_notnan x y : (x <? y)%float = true -> notnan x.
Proof.
  rewrite notnan_spec, FloatAxioms.ltb_spec. unfold SFltb, SFcompare.
  intros H E. rewrite E in H. discriminate.
Qed.

(** Addition is commutative, on the specification and on binary64. *)
Lemma SFadd_comm prec emax s t : SFadd prec emax s t = SFadd prec emax t s.
Proof.
  unfold SFadd.
  destruct s as [[]|[]| |[] m1 e1], t as [[]|[]| |[] m2 e2]; simpl;
    try reflexivity; rewrite (Z.min_comm e2 e1); f_equal;
    try apply Z.add_comm; try apply Pos.add_comm.
Qed.

Lemma add_comm x y : (x + y)%float = (y + x)%float.
Proof.
  apply FloatAxioms.Prim2SF_inj. rewrite !FloatAxioms.add_spec.
  apply SFadd_comm.
Qed.

End FloatOrder.

(** * Facts on [sorted] and on slicing *)

Module PyFacts.
Import FloatOrder.

Section Sorted.
Context {A : Type}.
Variable key : A -> float.

Definition le_key (x y : A) : Prop := (key x <=? key y)%float = true.

Lemma insert_perm x l : Permutation (x :: l) (Py.insert key x l).
Proof.
  induction l as [|y l IH]; simpl; [reflexivity|].
  destruct (key y <? key x)%float; [|reflexivity].
  rewrite perm_swap. now apply perm_skip.
Qed.

Lemma sorted_perm l : Permutation l (Py.sorted key l).
Proof.
  induction l as [|x l IH]; simpl; [constructor|].
  rewrite <- insert_perm. now apply perm_skip.
Qed.

Lemma sorted_length l : List.length (Py.sorted key l) = List.length l.
Proof. symmetry. apply Permutation_length, sorted_perm. Qed.

Lemma sorted_In x l : In x (Py.sorted key l) <-> In x l.
Proof.
  split; apply Permutation_in;
    [symmetry|]; apply sorted_perm.
Qed.

Lemma insert_sorted x l :
  notnan (key x) -> Forall (fun y => notnan (key y)) l ->
  StronglySorted le_key l -> StronglySorted le_key (Py.insert key x l).
Proof.
  intros Hx Hl Hs. induction Hs as [|y l Hs IH Hy]; simpl.
  - repeat constructor.
  - inversion Hl as [|? ? Hny Hl']; subst.
    destruct (key y <? key x)%float eqn:E.
    + constructor; [now apply IH|].
      rewrite Forall_forall. intros z Hz.
      apply (Permutation_in _ (Permutation_sym (insert_perm x l))) in Hz.
      destruct Hz as [<-|Hz].
      * now apply ltb_leb.
      * rewrite Forall_forall in Hy. now apply Hy.
    + assert (Hxy : le_key x y).
      { unfold le_key. rewrite leb_ltb, E by assumption. reflexivity. }
      constructor; [now constructor|].
      constructor; [assumption|].
      rewrite Forall_forall in Hy |- *. intros z Hz.
      unfold le_key in *. eapply leb_trans; [exact Hxy|now apply Hy].
Qed.

Lemma sorted_sorted l :
  Forall (fun y => notnan (key y)) l -> StronglySorted le_key (Py.sorted key l).
Proof.
  induction 1 as [|x l Hx Hl IH]; simpl; [constructor|].
  apply insert_sorted; [assumption| |assumption].
  rewrite Forall_forall in Hl |- *. intros y Hy. apply Hl.
  now apply sorted_In.
Qed.

Lemma firstn_sorted n l :
  StronglySorted le_key l -> StronglySorted le_key (firstn n l).
Proof.
  intros Hs. revert n. induction Hs as [|y l Hs IH Hy]; intros [|n]; simpl;
    try constructor; [apply IH|].
  rewrite Forall_forall in Hy |- *. intros z Hz. apply Hy.
  clear -Hz. revert n Hz. induction l as [|a l IHl]; intros [|n]; simpl;
    try tauto. intros [->|H]; [now left|right; eauto].
Qed.
End Sorted.

Lemma slice_to_firstn {A : Type} (k : Z) (l : list A) :
  0 <= k -> Py.slice_to k l = firstn (Z.to_nat k) l.
Proof.
  intros Hk. unfold Py.slice_to.
  destruct (k <? 0)%Z eqn:E; [apply Z.ltb_lt in E; lia|reflexivity].
Qed.

Lemma slice_to_len {A : Type} (k : Z) (l : list A) :
  0 <= k -> Py.len (Py.slice_to k l) = Z.min k (Py.len l).
Proof.
  intros Hk. rewrite slice_to_firstn by assumption. unfold Py.len.
  rewrite length_firstn. lia.
Qed.

(** For a negative [k] the slice drops the last [-k] elements. *)
Lemma slice_to_neg_len {A : Type} (k : Z) (l : list A) :
  k < 0 -> Py.len (Py.slice_to k l) = Z.max 0 (Py.len l + k).
Proof.
  intros Hk. unfold Py.slice_to.
  destruct (k <? 0)%Z eqn:E; [|apply Z.ltb_ge in E; lia].
  unfold Py.len. rewrite length_firstn. lia.
Qed.
End PyFacts.

Module AeroDataFacts.
Import FloatOrder PyFacts.

Lemma int_ok s z : int_ s = Ok z <-> Py.int s = Some z.
Proof. unfold int_. destruct (Py.int s); split; congruence. Qed.

Lemma int_err s e :
  int_ s = Err e <-> Py.int s = None /\ e = ValueError (InvalidIntLiteral s).
Proof.
  unfold int_. destruct (Py.int s); split; try congruence.
  - intros [? _]. discriminate.
  - intros H. inversion H. auto.
  - intros [_ ->]. reflexivity.
Qed.

Lemma find_apt_In apts aptID a :
  AeroData.find_apt apts aptID = Some a ->
  In a apts /\ Airport.icao_ident a = aptID.
Proof.
  induction apts as [|b apts IH]; simpl; [discriminate|].
  destruct (String.eqb_spec (Airport.icao_ident b) aptID) as [E|E].
  - intros [= <-]. auto.
  - intros H. destruct (IH H). auto.
Qed.

Lemma find_apt_None apts aptID :
  AeroData.find_apt apts aptID = None <->
  Forall (fun a => Airport.icao_ident a <> aptID) apts.
Proof.
  induction apts as [|b apts IH]; simpl.
  - split; auto.
  - destruct (String.eqb_spec (Airport.icao_ident b) aptID) as [E|E].
    + split; [discriminate|]. intros H. inversion H. contradiction.
    + rewrite IH. split; [now constructor|]. intros H. now inversion H.
Qed.

Definition usable (rwys : list Runway.Runway) : Z :=
  fold_right Z.max 0 (map Spec.length_value (filter Spec.paved rwys)).

Lemma usable_nonneg rwys : 0 <= usable rwys.
Proof.
  unfold usable. induction (filter Spec.paved rwys); simpl; lia.
Qed.

Lemma longest_value rwys l v :
  0 <= l -> AeroData.longest rwys l = Ok v -> v = Z.max l (usable rwys).
Proof.
  revert l. induction rwys as [|r rwys IH]; simpl; intros l Hl.
  - intros [= <-]. unfold usable. simpl. lia.
  - unfold usable. simpl. fold (Spec.paved r).
    destruct (Spec.paved r) eqn:P; simpl.
    + destruct (int_ (Runway.length r)) as [n|e] eqn:E; simpl; [|discriminate].
      apply int_ok in E. unfold Spec.length_value at 1. rewrite E.
      intros H. apply IH in H; [|lia]. unfold usable in H. lia.
    + now apply IH.
Qed.

Definition lengths_ok (rwys : list Runway.Runway) : Prop :=
  Forall (fun r => Spec.paved r = true -> Py.int (Runway.length r) <> None) rwys.

Lemma longest_ok rwys l :
  lengths_ok rwys -> exists v, AeroData.longest rwys l = Ok v.
Proof.
  intros H. revert l. induction H as [|r rwys Hr H IH]; simpl; intros l.
  - eauto.
  - fold (Spec.paved r). destruct (Spec.paved r) eqn:P; simpl; [|apply IH].
    unfold int_. destruct (Py.int (Runway.length r)) eqn:E; simpl.
    + apply IH.
    + now elim Hr.
Qed.

Lemma longest_err rwys l :
  ~ lengths_ok rwys ->
  exists s, Py.int s = None /\
    AeroData.longest rwys l = Err (ValueError (InvalidIntLiteral s)).
Proof.
  revert l. induction rwys as [|r rwys IH]; simpl; intros l H.
  - elim H. constructor.
  - fold (Spec.paved r). destruct (Spec.paved r) eqn:P; simpl.
    + unfold int_. destruct (Py.int (Runway.length r)) eqn:E; simpl.
      * apply IH. intros H'. apply H. constructor; [congruence|assumption].
      * eauto.
    + apply IH. intros H'. apply H. constructor; [congruence|assumption].
Qed.

Lemma lengths_ok_dec rwys : lengths_ok rwys \/ ~ lengths_ok rwys.
Proof.
  induction rwys as [|r rwys [IH|IH]].
  - left. constructor.
  - destruct (Spec.paved r) eqn:P.
    + destruct (Py.int (Runway.length r)) eqn:E.
      * left. constructor; [congruence|assumption].
      * right. intros H. inversion H as [|? ? Hr _]. now apply Hr.
    + left. constructor; [congruence|assumption].
  - right. intros H. inversion H. contradiction.
Qed.

Section Query.
Variable inv : float -> float -> float -> float -> float * float * float.

Lemma candidates_value myLoc apts found :
  AeroData.candidates inv myLoc apts = Ok found ->
  found = Spec.qualifying inv myLoc apts.
Proof.
  revert found. induction apts as [|a apts IH]; simpl; intros found.
  - intros [= <-]. reflexivity.
  - destruct (AeroData.longest (Airport.rwys a) 0) as [l|e] eqn:L; simpl;
      [|discriminate].
    destruct (AeroData.candidates inv myLoc apts) as [tail|e] eqn:C; simpl;
      [|discriminate].
    apply longest_value in L; [|lia]. rewrite (IH tail eq_refl).
    assert (Hl : l = Spec.usable_runway_length a).
    { subst l. apply Z.max_r, usable_nonneg. }
    assert (Hq : Spec.qualifies inv myLoc a =
                 ((8000 <=? l)%Z &&
                  (AeroData.range (AeroData.measure inv myLoc a) <? 1000)%float)%bool).
    { unfold Spec.qualifies. now rewrite <- Hl. }
    unfold Spec.qualifying. cbn [filter]. rewrite Hq.
    destruct ((8000 <=? l)%Z && _)%bool; intros [= <-]; reflexivity.
Qed.

Lemma candidates_ok myLoc apts :
  Spec.lengths_parse apts ->
  exists found, AeroData.candidates inv myLoc apts = Ok found.
Proof.
  induction 1 as [|a apts Ha H [tail IH]]; simpl; [eauto|].
  destruct (longest_ok _ 0 Ha) as [l ->]. simpl. rewrite IH. simpl. eauto.
Qed.

Lemma candidates_err myLoc apts :
  ~ Spec.lengths_parse apts ->
  exists s, Py.int s = None /\
    AeroData.candidates inv myLoc apts = Err (ValueError (InvalidIntLiteral s)).
Proof.
  induction apts as [|a apts IH]; simpl; intros H.
  - elim H. constructor.
  - destruct (lengths_ok_dec (Airport.rwys a)) as [Ha|Ha].
    + destruct (longest_ok _ 0 Ha) as [l ->]. simpl.
      destruct IH as (s & Hs & ->).
      { intros H'. apply H. now constructor. }
      simpl. eauto.
    + destruct (longest_err _ 0 Ha) as (s & Hs & ->). simpl. eauto.
Qed.
End Query.
End AeroDataFacts.

Module QueryClaims.
Import FloatOrder PyFacts AeroDataFacts.

Lemma nearestApts_value inv apts aptID num myApt res :
  AeroData.find_apt apts aptID = Some myApt ->
  AeroData.nearestApts inv apts aptID num = Ok res ->
  let S := Py.sorted AeroData.range
             (Spec.qualifying inv (Airport.location myApt) apts) in
  res = Py.slice_to (Z.min num (Py.len S)) S.
Proof.
  intros Hf. unfold AeroData.nearestApts. rewrite Hf.
  destruct (AeroData.candidates _ _ _) as [found|e] eqn:C; simpl; [|discriminate].
  apply candidates_value in C. subst found. now intros [= <-].
Qed.

Lemma measure_facility inv myLoc a :
  AeroData.facility (AeroData.measure inv myLoc a) = a.
Proof.
  unfold AeroData.measure. destruct (inv _ _ _ _) as [[? ?] ?]. reflexivity.
Qed.

Lemma In_qualifying inv myLoc apts e :
  In e (Spec.qualifying inv myLoc apts) <->
  exists a, In a apts /\ Spec.qualifies inv myLoc a = true /\
            e = AeroData.measure inv myLoc a.
Proof.
  unfold Spec.qualifying. rewrite in_map_iff. split.
  - intros (a & <- & Ha). apply filter_In in Ha. destruct Ha. eauto.
  - intros (a & Ha & Hq & ->). exists a. split; [reflexivity|].
    apply filter_In. auto.
Qed.

Lemma In_firstn {A : Type} (x : A) n l : In x (firstn n l) -> In x l.
Proof.
  intros H. rewrite <- (firstn_skipn n l). apply in_or_app. now left.
Qed.

Lemma In_slice_to {A : Type} (x : A) k l : In x (Py.slice_to k l) -> In x l.
Proof. unfold Py.slice_to. destruct (k <? 0)%Z; apply In_firstn. Qed.

(** A range below the cap is a number. *)
Lemma qualifying_notnan inv myLoc apts :
  Forall (fun e => notnan (AeroData.range e)) (Spec.qualifying inv myLoc apts).
Proof.
  apply Forall_forall. intros e He. apply In_qualifying in He.
  destruct He as (a & _ & Hq & ->). unfold Spec.qualifies in Hq.
  apply andb_true_iff in Hq. destruct Hq as [_ Hq]. exact (ltb_notnan _ _ Hq).
Qed.

Lemma slice_to_prefix {A : Type} (k : Z) (l : list A) :
  exists n, Py.slice_to k l = firstn n l.
Proof. unfold Py.slice_to. destruct (k <? 0)%Z; eauto. Qed.

(** C1, amended.  Whenever [nearestApts] returns, the sequence it returns is
    in ascending order of range, every element of it passed the filter, its
    first element has the smallest range among all facilities passing the
    filter, and its length is the minimum of [num] and the number of
    facilities passing the filter when [num] is not negative; a negative
    [num] is a slice bound counted from the end, and the length is then the
    number of facilities passing the filter less [-num], or 0. *)
Theorem nearestApts_sorted_topk inv apts aptID num myApt res :
  AeroData.find_apt apts aptID = Some myApt ->
  AeroData.nearestApts inv apts aptID num = Ok res ->
  StronglySorted Spec.le_range res /\
  (forall e0 e, hd_error res = Some e0 ->
     In e (Spec.qualifying inv (Airport.location myApt) apts) ->
     Spec.le_range e0 e) /\
  Py.len res =
    (if (num <? 0)%Z
     then Z.max 0
            (Py.len (Spec.qualifying inv (Airport.location myApt) apts) + num)
     else Z.min num
            (Py.len (Spec.qualifying inv (Airport.location myApt) apts))) /\
  (forall e, In e res ->
     In e (Spec.qualifying inv (Airport.location myApt) apts)).
Proof.
  intros Hf Hres.
  pose proof (nearestApts_value _ _ _ _ _ _ Hf Hres) as E. cbv zeta in E.
  set (Q := Spec.qualifying inv (Airport.location myApt) apts) in *.
  pose proof (qualifying_notnan inv (Airport.location myApt) apts) as HQ.
  fold Q in HQ.
  pose proof (sorted_sorted AeroData.range Q HQ) as Hs.
  assert (Hlen : Py.len (Py.sorted AeroData.range Q) = Py.len Q).
  { unfold Py.len. now rewrite sorted_length. }
  rewrite Hlen in E.
  destruct (slice_to_prefix (Z.min num (Py.len Q)) (Py.sorted AeroData.range Q))
    as [n Hn].
  repeat split.
  - rewrite E, Hn. now apply firstn_sorted.
  - intros e0 e H0 He. rewrite E, Hn in H0.
    apply (sorted_In AeroData.range) in He.
    destruct (Py.sorted AeroData.range Q) as [|x l] eqn:Es; [contradiction|].
    destruct n; simpl in H0; [discriminate|].
    injection H0 as <-. inversion Hs as [|? ? _ Hx]; subst.
    destruct He as [<-|He].
    + apply leb_refl. rewrite Forall_forall in HQ. apply HQ.
      apply (sorted_In AeroData.range). rewrite Es. now left.
    + rewrite Forall_forall in Hx. now apply Hx.
  - rewrite E. destruct (num <? 0)%Z eqn:S.
    + apply Z.ltb_lt in S. rewrite Z.min_l by (unfold Py.len; lia).
      rewrite slice_to_neg_len by assumption. now rewrite Hlen.
    + apply Z.ltb_ge in S. rewrite slice_to_len by (unfold Py.len; lia).
      rewrite Hlen. unfold Py.len. lia.
  - intros e He. rewrite E, Hn in He. apply (sorted_In AeroData.range).
    revert He. apply In_firstn.
Qed.

(** With [num] at least the size of the catalog nothing is cut off, and a
    facility is in the result exactly when it passes the filter. *)
Lemma nearestApts_untruncated inv apts aptID num myApt res a :
  AeroData.find_apt apts aptID = Some myApt ->
  Py.len apts <= num ->
  AeroData.nearestApts inv apts aptID num = Ok res ->
  (In (AeroData.measure inv (Airport.location myApt) a) res <->
   In a apts /\ Spec.qualifies inv (Airport.location myApt) a = true).
Proof.
  intros Hf Hnum Hres.
  pose proof (nearestApts_value _ _ _ _ _ _ Hf Hres) as E. cbv zeta in E.
  set (loc := Airport.location myApt) in *.
  set (Q := Spec.qualifying inv loc apts) in *.
  assert (HlenQ : Py.len Q <= Py.len apts).
  { unfold Q, Spec.qualifying, Py.len. rewrite length_map.
    apply inj_le, filter_length_le. }
  assert (Hlen : Py.len (Py.sorted AeroData.range Q) = Py.len Q).
  { unfold Py.len. now rewrite sorted_length. }
  rewrite Hlen in E.
  rewrite slice_to_firstn in E by (unfold Py.len in *; lia).
  rewrite Z.min_r in E by lia.
  unfold Py.len in E. rewrite Nat2Z.id, <- (sorted_length AeroData.range) in E.
  rewrite firstn_all in E.
  subst res. rewrite sorted_In. unfold Q. rewrite In_qualifying. split.
  - intros (b & Hb & Hq & Eb).
    apply (f_equal AeroData.facility) in Eb.
    rewrite !measure_facility in Eb. now subst b.
  - intros [Ha Hq]. eauto.
Qed.


(** C10.  Once the origin is found, [nearestApts] returns a result if and
    only if every runway that is neither water nor turf, at every facility of
    the catalog, has a length that [int] reads; otherwise the whole query
    fails with the [ValueError] of that conversion. *)
Theorem nearestApts_total_iff inv apts aptID num myApt :
  AeroData.find_apt apts aptID = Some myApt ->
  ((exists res, AeroData.nearestApts inv apts aptID num = Ok res) <->
   Spec.lengths_parse apts) /\
  (~ Spec.lengths_parse apts ->
   exists s, Py.int s = None /\
     AeroData.nearestApts inv apts aptID num
     = Err (ValueError (InvalidIntLiteral s))).
Proof.
  intros Hf. unfold AeroData.nearestApts. rewrite Hf.
  assert (Herr : ~ Spec.lengths_parse apts ->
    exists s, Py.int s = None /\
      (found <- AeroData.candidates inv (Airport.location myApt) apts ;;
       Ok (Py.slice_to (Z.min num (Py.len (Py.sorted AeroData.range found)))
             (Py.sorted AeroData.range found)))
      = Err (ValueError (InvalidIntLiteral s))).
  { intros H. destruct (candidates_err inv (Airport.location myApt) _ H)
      as (s & Hs & ->). simpl. eauto. }
  split; [|exact Herr]. split.
  - intros [res Hres].
    assert (D : Spec.lengths_parse apts \/ ~ Spec.lengths_parse apts).
    { clear. induction apts as [|a apts [IH|IH]].
      - left. constructor.
      - destruct (lengths_ok_dec (Airport.rwys a)) as [Ha|Ha].
        + left. now constructor.
        + right. intros H. inversion H. contradiction.
      - right. intros H. inversion H. contradiction. }
    destruct D as [D|D]; [assumption|].
    destruct (Herr D) as (s & _ & Hs). simpl in Hres, Hs. congruence.
  - intros H. destruct (candidates_ok inv (Airport.location myApt) _ H)
      as [found ->]. simpl. eauto.
Qed.
(** C4, amended.  Every element of the result of [nearestApts] is a facility
    of the catalog, the origin included, with the geodesic inverse taken from
    the origin's location to that facility's own location: its range is the
    distance divided by 1852, and its bearing is the forward azimuth, with
    360 added when the azimuth is negative.  The origin is itself in the
    result when it passes the filter and nothing is cut off. *)
Theorem nearestApts_measures inv apts aptID num myApt res :
  AeroData.find_apt apts aptID = Some myApt ->
  AeroData.nearestApts inv apts aptID num = Ok res ->
  Forall (fun e =>
    In (AeroData.facility e) apts /\
    let '(fwd_az, back_az, dist) :=
      inv (snd (Airport.location myApt)) (fst (Airport.location myApt))
          (snd (Airport.location (AeroData.facility e)))
          (fst (Airport.location (AeroData.facility e))) in
    AeroData.range e = (dist / 1852)%float /\
    AeroData.bearing e
    = (if (fwd_az <? 0)%float then (fwd_az + 360)%float else fwd_az)) res /\
  In myApt apts /\
  (Spec.qualifies inv (Airport.location myApt) myApt = true ->
   Py.len apts <= num ->
   In (AeroData.measure inv (Airport.location myApt) myApt) res).
Proof.
  intros Hf Hres. split; [|split].
  - pose proof (nearestApts_value _ _ _ _ _ _ Hf Hres) as E. cbv zeta in E.
    rewrite Forall_forall. intros e He.
    assert (HQ : In e (Spec.qualifying inv (Airport.location myApt) apts)).
    { apply (sorted_In AeroData.range). rewrite E in He. revert He.
      apply In_slice_to. }
    apply In_qualifying in HQ. destruct HQ as (a & Ha & _ & ->).
    rewrite measure_facility. split; [assumption|].
    unfold AeroData.measure. destruct (inv _ _ _ _) as [[fwd_az back_az] dist].
    split; reflexivity.
  - now apply find_apt_In in Hf.
  - intros Hq Hnum.
    apply (nearestApts_untruncated inv _ _ _ _ _ myApt Hf Hnum Hres).
    split; [now apply find_apt_In in Hf|exact Hq].
Qed.
End QueryClaims.

Module ParseFacts.

Lemma scan_runways_ok rest rwys :
  Exists (fun line => AeroData.is_boundary line = true) rest ->
  AeroData.scan_runways rest rwys = Ok (rwys ++ Spec.runways_of rest)%list.
Proof.
  intros H. revert rwys. induction H as [line rest H|line rest H IH]; intros rwys.
  - simpl. unfold Spec.runways_of. simpl. rewrite H. simpl.
    now rewrite app_nil_r.
  - simpl. unfold Spec.runways_of. simpl.
    destruct (AeroData.is_boundary line) eqn:B.
    + simpl. now rewrite app_nil_r.
    + simpl. destruct (tag line =? "RWY") eqn:R; simpl.
      * rewrite IH, <- app_assoc. reflexivity.
      * apply IH.
Qed.

Lemma scan_runways_err rest rwys :
  ~ Exists (fun line => AeroData.is_boundary line = true) rest ->
  AeroData.scan_runways rest rwys = Err IndexError.
Proof.
  revert rwys. induction rest as [|line rest IH]; intros rwys H; simpl.
  - reflexivity.
  - destruct (AeroData.is_boundary line) eqn:B.
    + elim H. now left.
    + assert (H' : ~ Exists (fun l => AeroData.is_boundary l = true) rest).
      { intros E. apply H. now right. }
      destruct (tag line =? "RWY"); now apply IH.
Qed.

Lemma bounded_dec rest :
  Exists (fun line => AeroData.is_boundary line = true) rest \/
  ~ Exists (fun line => AeroData.is_boundary line = true) rest.
Proof.
  induction rest as [|line rest [IH|IH]].
  - right. intros H. inversion H.
  - left. now right.
  - destruct (AeroData.is_boundary line) eqn:B.
    + left. now left.
    + right. intros H. inversion H; subst; [congruence|contradiction].
Qed.

Lemma apt_is_boundary line :
  (tag line =? "APT") = true -> AeroData.is_boundary line = true.
Proof.
  unfold AeroData.is_boundary. intros ->. now rewrite orb_true_r.
Qed.

Lemma facility_positions_cons line rest :
  Spec.facility_positions (line :: rest) =
  ((if tag line =? "APT" then [0%nat] else [])
     ++ map S (Spec.facility_positions rest))%list.
Proof.
  unfold Spec.facility_positions. simpl List.length.
  rewrite <- cons_seq, <- seq_shift. cbn [filter].
  change (nth 0 (line :: rest) "") with line.
  assert (E : forall l,
    filter (fun i => tag (nth i (line :: rest) "") =? "APT") (map S l) =
    map S (filter (fun i => tag (nth i rest "") =? "APT") l)).
  { induction l as [|i l IH]; [reflexivity|]. cbn [map filter].
    rewrite IH. change (nth (S i) (line :: rest) "") with (nth i rest "").
    now destruct (tag (nth i rest "") =? "APT"). }
  rewrite E. now destruct (tag line =? "APT").
Qed.

Lemma Forall2_map_S (P : nat -> Airport.Airport -> Prop) l apts :
  Forall2 (fun i => P (S i)) l apts -> Forall2 P (map S l) apts.
Proof. induction 1; simpl; constructor; auto. Qed.

Lemma Forall2_map_S_inv (P : nat -> Airport.Airport -> Prop) l apts :
  Forall2 P (map S l) apts -> Forall2 (fun i => P (S i)) l apts.
Proof.
  revert apts. induction l as [|i l IH]; simpl; intros apts H;
    inversion H; subst; constructor; auto.
Qed.

(** The parser's result, read position by position. *)
Lemma parse_from_decoded lines airports :
  AeroData.parse_from lines = Ok airports ->
  Forall2 (fun i a => Spec.decoded_at lines i a /\ Spec.bounded lines i)
          (Spec.facility_positions lines) airports.
Proof.
  revert airports. induction lines as [|line rest IH]; intros airports.
  - simpl. intros [= <-]. constructor.
  - rewrite facility_positions_cons. simpl.
    destruct (tag line =? "APT") eqn:T.
    + destruct (AeroData.decode_facility line) as [apt|e] eqn:D; simpl;
        [|discriminate].
      destruct (AeroData.scan_runways rest (Airport.rwys apt)) as [rwys|e] eqn:S0;
        simpl; [|discriminate].
      destruct (AeroData.parse_from rest) as [tail|e] eqn:P; simpl;
        [|discriminate].
      intros [= <-].
      destruct (bounded_dec rest) as [B|B];
        [|rewrite (scan_runways_err _ _ B) in S0; discriminate].
      rewrite (scan_runways_ok _ _ B) in S0. injection S0 as <-.
      assert (R : Airport.rwys apt = []).
      { unfold AeroData.decode_facility in D.
        destruct (AeroData.convertToDeg _ _); simpl in D; [|discriminate].
        injection D as <-. reflexivity. }
      rewrite R. simpl. constructor.
      * split; [|exact B]. exists apt. split; [exact D|reflexivity].
      * apply Forall2_map_S. specialize (IH tail eq_refl).
        revert IH. apply Forall2_impl. intros i a [Ha Hb]. split; assumption.
    + intros H. apply Forall2_map_S. specialize (IH airports H).
      revert IH. apply Forall2_impl. intros i a [Ha Hb]. split; assumption.
Qed.

(** The parser returns a catalog when every facility line decodes and has a
    boundary marker after it. *)
Lemma parse_from_ok lines :
  Forall (fun i => (exists a0, AeroData.decode_facility (nth i lines "") = Ok a0)
                   /\ Spec.bounded lines i)
         (Spec.facility_positions lines) ->
  exists airports, AeroData.parse_from lines = Ok airports.
Proof.
  induction lines as [|line rest IH].
  - simpl. eauto.
  - rewrite facility_positions_cons. simpl.
    destruct (tag line =? "APT") eqn:T; simpl; intros H.
    + inversion H as [|? ? [[a0 D] B] H']; subst. simpl in D. rewrite D. simpl.
      unfold Spec.bounded in B. simpl in B.
      rewrite (scan_runways_ok _ _ B). simpl.
      destruct IH as [tail ->]; [|simpl; eauto].
      rewrite Forall_map in H'. exact H'.
    + apply IH. rewrite Forall_map in H. exact H.
Qed.

(** A facility whose scan meets no boundary marker makes the parser fail
    with [IndexError], provided the coordinates up to it decode. *)
Lemma parse_from_unbounded lines i :
  In i (Spec.facility_positions lines) ->
  ~ Spec.bounded lines i ->
  (forall j, In j (Spec.facility_positions lines) -> (j <= i)%nat ->
     exists a0, AeroData.decode_facility (nth j lines "") = Ok a0) ->
  AeroData.parse_from lines = Err IndexError.
Proof.
  revert i. induction lines as [|line rest IH]; intros i Hi Hb Hd.
  - inversion Hi.
  - rewrite facility_positions_cons in Hi, Hd. simpl.
    destruct (tag line =? "APT") eqn:T.
    + destruct (Hd 0%nat) as [a0 D]; [now left|lia|]. simpl in D.
      rewrite D. simpl.
      assert (R : Airport.rwys a0 = []).
      { unfold AeroData.decode_facility in D.
        destruct (AeroData.convertToDeg _ _); simpl in D; [|discriminate].
        injection D as <-. reflexivity. }
      destruct Hi as [<-|Hi].
      * unfold Spec.bounded in Hb. simpl in Hb.
        now rewrite (scan_runways_err _ _ Hb).
      * apply in_map_iff in Hi. destruct Hi as (i' & <- & Hi').
        assert (B : Exists (fun l => AeroData.is_boundary l = true) rest).
        { unfold Spec.facility_positions in Hi'. apply filter_In in Hi'.
          destruct Hi' as [Hs Ht]. apply in_seq in Hs.
          apply Exists_exists. exists (nth i' rest ""). split.
          - apply nth_In. lia.
          - now apply apt_is_boundary. }
        rewrite (scan_runways_ok _ _ B). simpl.
        rewrite (IH i'); [reflexivity|assumption|exact Hb|].
        intros j Hj Hle. destruct (Hd (S j)) as [a1 D1].
        -- right. now apply in_map.
        -- lia.
        -- eauto.
    + simpl in Hi. apply in_map_iff in Hi. destruct Hi as (i' & <- & Hi').
      apply (IH i'); [assumption|exact Hb|].
      intros j Hj Hle. destruct (Hd (S j)) as [a1 D1].
      * simpl. now apply in_map.
      * lia.
      * eauto.
Qed.
End ParseFacts.

Module StringFacts.

Lemma rstrip_by_prefix sp s : exists t, s = Py.rstrip_by sp s ++ t.
Proof.
  induction s as [|c s [t IH]]; simpl.
  - now exists "".
  - destruct (Py.rstrip_by sp s) as [|d r] eqn:E.
    + destruct (sp c).
      * now exists (String c s).
      * exists s. reflexivity.
    + exists t. simpl. now rewrite IH at 1.
Qed.

Lemma append_length a b :
  String.length (a ++ b) = (String.length a + String.length b)%nat.
Proof. induction a; simpl; congruence. Qed.

Lemma rstrip_by_full sp s :
  String.length (Py.rstrip_by sp s) = String.length s -> Py.rstrip_by sp s = s.
Proof.
  destruct (rstrip_by_prefix sp s) as [t E]. intros H.
  rewrite E in H at 2. rewrite append_length in H.
  destruct t; [|simpl in H; lia].
  rewrite E at 2. clear. induction (Py.rstrip_by sp s); simpl; congruence.
Qed.

Lemma slice_length a b s : (String.length (Py.slice a b s) <= b - a)%nat.
Proof.
  unfold Py.slice. generalize (b - a)%nat as m. revert a.
  induction s as [|c s IH]; intros [|a] [|m]; simpl; try lia.
  - specialize (IH 0%nat m). lia.
  - apply (IH a 0%nat).
  - apply (IH a (S m)).
Qed.

Lemma rcut_none sep s : Py.contains sep s = false -> Py.rcut sep s = None.
Proof.
  induction s as [|c s IH]; simpl; [reflexivity|].
  intros H. apply orb_false_iff in H. destruct H as [H1 H2].
  now rewrite (IH H2), H1.
Qed.

Lemma rcut_some sep s :
  Py.contains sep s = true -> exists a b, Py.rsplit1 sep s = [a; b].
Proof.
  unfold Py.rsplit1. induction s as [|c s IH]; simpl; [discriminate|].
  intros H. destruct (Py.rcut sep s) as [[a b]|] eqn:E; [eauto|].
  destruct (Ascii.eqb c sep); [eauto|]. simpl in H.
  destruct (IH H) as (a & b & [=]).
Qed.

Lemma rcut_last sep a b :
  Py.contains sep b = false ->
  Py.rcut sep (a ++ String sep b) = Some (a, b).
Proof.
  intros H. induction a as [|c a IH]; simpl.
  - now rewrite (rcut_none _ _ H), Ascii.eqb_refl.
  - now rewrite IH.
Qed.

Lemma contains_app sep a b :
  Py.contains sep (a ++ String sep b) = true.
Proof.
  induction a as [|c a IH]; simpl.
  - now rewrite Ascii.eqb_refl.
  - rewrite IH. apply orb_true_r.
Qed.
End StringFacts.

Module ParseClaims.
Import StringFacts ParseFacts.


(** C7, amended.  When the lines end before a boundary marker follows the
    facility line at position [i] (and the facility lines up to [i] decode),
    the parse fails with [IndexError], the out-of-bounds indexing fault. *)
Theorem parseAirports_runs_off_the_end lines i :
  In i (Spec.facility_positions lines) ->
  ~ Spec.bounded lines i ->
  (forall j, In j (Spec.facility_positions lines) -> (j <= i)%nat ->
     exists a0, AeroData.decode_facility (nth j lines "") = Ok a0) ->
  AeroData.parseAirports lines = Err IndexError.
Proof. apply parse_from_unbounded. Qed.

(** C8.  The identifier of every parsed facility is the right-trimmed raw
    field [line[27:31]] with "K" in front when the trimmed field has exactly
    3 characters, and the raw field as it is when it has 4. *)
Theorem parseAirports_identifier lines airports :
  AeroData.parseAirports lines = Ok airports ->
  Forall2 (fun i a =>
             let raw := Py.slice 27 31 (nth i lines "") in
             Airport.icao_ident a = Spec.normalize (Py.rstrip raw) /\
             (String.length (Py.rstrip raw) = 3%nat ->
              Airport.icao_ident a = "K" ++ Py.rstrip raw) /\
             (String.length (Py.rstrip raw) = 4%nat ->
              Airport.icao_ident a = raw))
          (Spec.facility_positions lines) airports.
Proof.
  intros H. apply parse_from_decoded in H. revert H. apply Forall2_impl.
  intros i a [(a0 & D & ->) _]. cbv zeta.
  set (raw := Py.slice 27 31 (nth i lines "")).
  assert (E : Airport.icao_ident a0 = Spec.normalize (Py.rstrip raw)).
  { unfold AeroData.decode_facility in D.
    destruct (AeroData.convertToDeg _ _); simpl in D; [|discriminate].
    injection D as <-. reflexivity. }
  simpl. rewrite E. unfold Spec.normalize. repeat split.
  - intros ->. reflexivity.
  - intros H4. rewrite H4. simpl. apply rstrip_by_full.
    pose proof (slice_length 27 31 (nth i lines "")) as L. fold raw in L.
    pose proof (rstrip_by_prefix Py.isspace raw) as [t Et].
    apply (f_equal String.length) in Et. rewrite append_length in Et.
    unfold Py.rstrip in H4. lia.
Qed.

(** C9.  A decoded runway splits the right-trimmed token [line[32:44]] at
    its last hyphen: the text before it is the surface and the text after it
    the condition; a token without hyphen is the surface, with an empty
    condition. *)
Theorem decode_runway_surface_cond line :
  let token := Py.rstrip (Py.slice 32 44 line) in
  let rwy := AeroData.decode_runway line in
  (Py.contains "-" token = false ->
   Runway.surface rwy = token /\ Runway.cond rwy = "") /\
  (forall before after,
     token = before ++ "-" ++ after -> Py.contains "-" after = false ->
     Runway.surface rwy = before /\ Runway.cond rwy = after).
Proof.
  cbv zeta. unfold AeroData.decode_runway.
  set (token := Py.rstrip (Py.slice 32 44 line)). split.
  - intros ->. simpl. auto.
  - intros before after E H. rewrite E. simpl append.
    rewrite contains_app. unfold Py.rsplit1.
    rewrite (rcut_last _ _ _ H). simpl. auto.
Qed.
End ParseClaims.

Module NumberFacts.
Import Spec.

Lemma isdigit_dig d : Py.isdigit (dig_char d) = true.
Proof. now destruct d. Qed.

Lemma digit_value_dig d : Py.digit_value (dig_char d) = dig_val d.
Proof. now destruct d. Qed.

Lemma isnumspace_dig d : Py.isnumspace (dig_char d) = false.
Proof. now destruct d. Qed.

(** Reading on through a run of digits. *)
Lemma digits_rest_text ds acc n rest :
  Py.digits_rest acc n (text ds ++ rest) =
  Py.digits_rest (number_from acc ds) (n + Z.of_nat (List.length ds)) rest.
Proof.
  revert acc n. induction ds as [|d ds IH]; intros acc n.
  - simpl. now rewrite Z.add_0_r.
  - cbn [text append Py.digits_rest]. rewrite isdigit_dig, digit_value_dig, IH.
    cbn [List.length number_from fold_left]. f_equal. lia.
Qed.

Lemma digit_group_text d ds acc rest :
  Py.digit_group acc (text (d :: ds) ++ rest) =
  Some (Py.digits_rest (number_from acc (d :: ds))
          (Z.of_nat (List.length (d :: ds))) rest).
Proof.
  cbn [text append Py.digit_group]. rewrite isdigit_dig, digit_value_dig.
  rewrite digits_rest_text. cbn [List.length number_from fold_left].
  do 2 f_equal. lia.
Qed.

Lemma lstrip_num_dig d s :
  Py.lstrip_by Py.isnumspace (String (dig_char d) s) = String (dig_char d) s.
Proof. simpl. now rewrite isnumspace_dig. Qed.

(** A text without blanks is left alone by [rstrip]. *)
Fixpoint no_blank (s : string) : bool :=
  match s with
  | "" => true
  | String c s' => negb (Py.isnumspace c) && no_blank s'
  end.

Lemma rstrip_num_no_blank s :
  no_blank s = true -> Py.rstrip_by Py.isnumspace s = s.
Proof.
  induction s as [|c s IH]; simpl; [reflexivity|].
  intros H. apply andb_true_iff in H. destruct H as [Hc Hs].
  rewrite (IH Hs). destruct s; [|reflexivity].
  now destruct (Py.isnumspace c).
Qed.

Lemma no_blank_text ds rest :
  no_blank rest = true -> no_blank (text ds ++ rest) = true.
Proof.
  intros H. induction ds as [|d ds IH]; simpl; [assumption|].
  now rewrite isnumspace_dig, IH.
Qed.

Lemma split_sign_dig d s :
  Py.split_sign (String (dig_char d) s) = (false, String (dig_char d) s).
Proof. now destruct d. Qed.

Lemma append_nil s : s ++ "" = s.
Proof. induction s; simpl; congruence. Qed.

Lemma digit_group_dig d ds acc rest :
  Py.digit_group acc (String (dig_char d) (text ds ++ rest)) =
  Some (Py.digits_rest (number_from acc (d :: ds))
          (Z.of_nat (List.length (d :: ds))) rest).
Proof. apply (digit_group_text d ds acc rest). Qed.

Lemma no_blank_dig d ds rest :
  no_blank rest = true ->
  no_blank (String (dig_char d) (text ds ++ rest)) = true.
Proof. apply (no_blank_text (d :: ds)). Qed.

(** [int] on a run of digits. *)
Lemma int_text d ds : Py.int (text (d :: ds)) = Some (number (d :: ds)).
Proof.
  rewrite <- (append_nil (text (d :: ds))).
  change (text (d :: ds) ++ "") with (String (dig_char d) (text ds ++ "")).
  unfold Py.int, Py.strip_num.
  rewrite lstrip_num_dig, rstrip_num_no_blank by (now apply no_blank_dig).
  rewrite split_sign_dig, digit_group_dig. reflexivity.
Qed.

Lemma lower_dig d : Py.lower_ascii (dig_char d) = dig_char d.
Proof. now destruct d. Qed.

(** [float] on digits, a point and digits. *)
Lemma float_text d ds e es :
  Py.float (text (d :: ds) ++ "." ++ text (e :: es)) =
  Some (Py.float_of_decimal (number ((d :: ds) ++ e :: es))
          (- Z.of_nat (List.length (e :: es)))).
Proof.
  rewrite <- (append_nil (text (e :: es))).
  change (text (d :: ds) ++ "." ++ text (e :: es) ++ "")
    with (String (dig_char d)
            (text ds ++ String "." (String (dig_char e) (text es ++ "")))).
  set (tail := String "." (String (dig_char e) (text es ++ ""))).
  assert (Htail : no_blank tail = true).
  { unfold tail. cbn [no_blank]. change (Py.isnumspace ".") with false.
    cbn [negb andb]. now apply no_blank_dig. }
  unfold Py.float, Py.strip_num.
  rewrite lstrip_num_dig, rstrip_num_no_blank by (now apply no_blank_dig).
  rewrite split_sign_dig. unfold Py.float_body.
  cbn [Py.lower_ascii_str]. rewrite lower_dig.
  replace (String (dig_char d) (Py.lower_ascii_str (text ds ++ tail)) =? "inf")
    with false by (now destruct d).
  replace (String (dig_char d) (Py.lower_ascii_str (text ds ++ tail))
             =? "infinity") with false by (now destruct d).
  replace (String (dig_char d) (Py.lower_ascii_str (text ds ++ tail)) =? "nan")
    with false by (now destruct d).
  cbn [orb]. rewrite digit_group_dig. unfold tail at 1.
  cbn [Py.digits_rest]. change (Py.isdigit ".") with false.
  change (Ascii.eqb "." "_") with false. cbv iota.
  rewrite digit_group_dig.
  cbn [Py.digits_rest Py.exponent_part].
  unfold number, number_from. rewrite fold_left_app.
  set (m := fold_left _ (e :: es) _).
  set (ni := Z.of_nat (List.length (d :: ds))).
  set (nf := Z.of_nat (List.length (e :: es))).
  replace (ni + nf =? 0)%Z with false
    by (symmetry; apply Z.eqb_neq; subst ni nf; simpl List.length; lia).
  reflexivity.
Qed.
End NumberFacts.

Module CoordinateClaims.
Import Spec NumberFacts.

(** A float equal to zero is one of the two zeros. *)
Lemma eqb_zero x : (x =? 0)%float = true -> x = 0%float \/ x = (-0)%float.
Proof.
  rewrite FloatAxioms.eqb_spec. intros H.
  assert (E : exists s, Prim2SF x = S754_zero s).
  { change (Prim2SF 0) with (S754_zero false) in H.
    destruct (Prim2SF x) as [s|s| |s m e]; try discriminate; eauto;
      destruct s; discriminate. }
  destruct E as [s E]. apply (f_equal SF2Prim) in E.
  rewrite SF2Prim_Prim2SF in E. destruct s; simpl in E; auto.
Qed.

(** The minutes term of [degrees]: [0. + m/60.] is [m/60.]. *)
Lemma minutes_term m1 m2 :
  (if (number [m1; m2] =? 0)%Z then 0%float
   else (0 + Py.float_of_int (number [m1; m2]) / 60)%float)
  = (Py.float_of_int (number [m1; m2]) / 60)%float.
Proof. destruct m1, m2; vm_compute; reflexivity. Qed.

Lemma minutes_plus_zero m1 m2 :
  let x := (Py.float_of_int (number [m1; m2]) / 60)%float in
  (x + 0 / 3600 = x)%float /\ (x + (-0) / 3600 = x)%float.
Proof. destruct m1, m2; vm_compute; split; reflexivity. Qed.

Lemma degrees_dms m1 m2 secs :
  degrees (number [m1; m2]) secs
  = (Py.float_of_int (number [m1; m2]) / 60 + secs / 3600)%float.
Proof.
  unfold degrees. rewrite minutes_term. unfold Py.truthy.
  destruct (secs =? 0)%float eqn:E; simpl; [|reflexivity].
  destruct (minutes_plus_zero m1 m2) as [H1 H2].
  destruct (eqb_zero _ E) as [-> | ->]; symmetry; assumption.
Qed.

(** C6.  On a latitude text [DD-MM-SS.SSSSH] and a longitude text
    [DDD-MM-SS.SSSSH] the converter returns degrees + minutes/60 +
    seconds/3600, each component read at its fixed offsets, negated for the
    latitude exactly when its last letter is "S" and for the longitude exactly
    when its last letter is "W". *)
Theorem convertToDeg_layout
  (d1 d2 m1 m2 s1 s2 f1 f2 f3 f4 : dig) (h1 : ascii)
  (e1 e2 e3 n1 n2 t1 t2 g1 g2 g3 g4 : dig) (h2 : ascii) :
  AeroData.convertToDeg
    (latitude_text d1 d2 m1 m2 s1 s2 f1 f2 f3 f4 h1)
    (longitude_text e1 e2 e3 n1 n2 t1 t2 g1 g2 g3 g4 h2)
  = Ok (negate_if (Ascii.eqb h1 "S")
          (dms (number [d1; d2]) (number [m1; m2])
               (seconds s1 s2 f1 f2 f3 f4)),
        negate_if (Ascii.eqb h2 "W")
          (dms (number [e1; e2; e3]) (number [n1; n2])
               (seconds t1 t2 g1 g2 g3 g4))).
Proof.
  unfold AeroData.convertToDeg.
  change (Py.slice 0 2 (latitude_text d1 d2 m1 m2 s1 s2 f1 f2 f3 f4 h1))
    with (text [d1; d2]).
  change (Py.slice 3 5 (latitude_text d1 d2 m1 m2 s1 s2 f1 f2 f3 f4 h1))
    with (text [m1; m2]).
  change (Py.slice 6 13 (latitude_text d1 d2 m1 m2 s1 s2 f1 f2 f3 f4 h1))
    with (text [s1; s2] ++ "." ++ text [f1; f2; f3; f4]).
  change (Py.last_char (latitude_text d1 d2 m1 m2 s1 s2 f1 f2 f3 f4 h1))
    with (@Ok ascii h1).
  change (Py.slice 0 3 (longitude_text e1 e2 e3 n1 n2 t1 t2 g1 g2 g3 g4 h2))
    with (text [e1; e2; e3]).
  change (Py.slice 4 6 (longitude_text e1 e2 e3 n1 n2 t1 t2 g1 g2 g3 g4 h2))
    with (text [n1; n2]).
  change (Py.slice 7 14 (longitude_text e1 e2 e3 n1 n2 t1 t2 g1 g2 g3 g4 h2))
    with (text [t1; t2] ++ "." ++ text [g1; g2; g3; g4]).
  change (Py.last_char (longitude_text e1 e2 e3 n1 n2 t1 t2 g1 g2 g3 g4 h2))
    with (@Ok ascii h2).
  unfold int_, float_. rewrite !int_text, !float_text. cbn [bind].
  rewrite !degrees_dms. reflexivity.
Qed.
End CoordinateClaims.

(** * Instances: the theorems at the sample data *)

Lemma nearestApts_sorted_topk_witness :
  StronglySorted Spec.le_range Fixture.nearest2 /\
  (forall e0 e, hd_error Fixture.nearest2 = Some e0 ->
     In e (Spec.qualifying Fixture.flat_inv
             (Airport.location Fixture.kvps) Fixture.catalog) ->
     Spec.le_range e0 e) /\
  Py.len Fixture.nearest2 =
    (if (2 <? 0)%Z
     then Z.max 0
            (Py.len (Spec.qualifying Fixture.flat_inv
                       (Airport.location Fixture.kvps) Fixture.catalog) + 2)
     else Z.min 2
            (Py.len (Spec.qualifying Fixture.flat_inv
                       (Airport.location Fixture.kvps) Fixture.catalog))) /\
  (forall e, In e Fixture.nearest2 ->
     In e (Spec.qualifying Fixture.flat_inv
             (Airport.location Fixture.kvps) Fixture.catalog)).
Proof.
  apply (QueryClaims.nearestApts_sorted_topk
           Fixture.flat_inv Fixture.catalog "KVPS" 2 Fixture.kvps).
  - reflexivity.
  - vm_compute. reflexivity.
Defined.

(** The claim of C1 gives the length as the minimum of the count and the
    number of qualifying facilities, for every query.  With the count -1
    and three qualifying facilities the slice [[:-1]] returns two entries,
    where that minimum is -1. *)
Lemma negative_count_is_a_slice_bound :
  AeroData.nearestApts Fixture.flat_inv Fixture.catalog "KVPS" (-1)
  = Ok Fixture.nearest2 /\
  Py.len (Spec.qualifying Fixture.flat_inv
            (Airport.location Fixture.kvps) Fixture.catalog) = 3 /\
  Py.len Fixture.nearest2 = 2 /\
  Z.min (-1) 3 = -1.
Proof. repeat split; vm_compute; reflexivity. Qed.

(** [AvData.nearest_airports] appends the variable of its lookup loop: from
    an origin whose longest runway is 6506 ft, with two facilities asked
    for, it returns the origin twice, which does not pass the filter, and
    none of the facilities that do. *)
Example nearest_airports_repeats_the_origin :
  Spec.usable_runway_length Fixture.kdts = 6506 /\
  AvData.nearest_airports Fixture.flat_inv Fixture.catalog
    "KDTS" 2 8000 true false
  = Ok [AvData.Text "KDTS"; AvData.Text "KDTS"].
Proof. split; vm_compute; reflexivity. Qed.



(** C3 at the failing input: [AeroData.nearestApts] compares identifiers as
    they are and reads [location] from [None] when none matches, where
    [AvData.nearest_airports] compares upper-cased identifiers and raises
    the [ValueError] of a missing airport. *)
Lemma nearestApts_lookup_diverges :
  AeroData.nearestApts Fixture.flat_inv Fixture.catalog "kvps" 20
  = Err AttributeError /\
  AeroData.nearestApts Fixture.flat_inv Fixture.catalog "ZZZZ" 20
  = Err AttributeError /\
  is_ok (AvData.nearest_airports Fixture.flat_inv Fixture.catalog
           "kvps" 10 8000 true true) = true /\
  AvData.nearest_airports Fixture.flat_inv Fixture.catalog
    "ZZZZ" 10 8000 true true
  = Err (ValueError (AirportNotFound "ZZZZ")).
Proof. repeat split; vm_compute; reflexivity. Qed.

(** The claim of C4 takes the candidates to be the facilities other than the
    origin and every bearing to lie below 360.  The origin is itself a
    candidate and heads the result at range 0; and a forward azimuth of
    -2^-67 degrees plus 360 rounds to 360 exactly. *)
Lemma origin_is_a_candidate :
  AeroData.nearestApts Fixture.flat_inv [Fixture.kvps; Fixture.kpam] "KVPS" 20
  = Ok [ (Fixture.kvps, 0%float, 0%float); (Fixture.kpam, 1%float, 250%float) ] /\
  AeroData.bearing (AeroData.measure Fixture.west_inv
                      (Airport.location Fixture.kvps) Fixture.kpam)
  = 360%float.
Proof. split; vm_compute; reflexivity. Qed.

Lemma nearestApts_measures_witness :
  Forall (fun e =>
    In (AeroData.facility e) Fixture.catalog /\
    let '(fwd_az, back_az, dist) :=
      Fixture.flat_inv
        (snd (Airport.location Fixture.kvps)) (fst (Airport.location Fixture.kvps))
        (snd (Airport.location (AeroData.facility e)))
        (fst (Airport.location (AeroData.facility e))) in
    AeroData.range e = (dist / 1852)%float /\
    AeroData.bearing e
    = (if (fwd_az <? 0)%float then (fwd_az + 360)%float else fwd_az))
    Fixture.nearest2 /\
  In Fixture.kvps Fixture.catalog /\
  (Spec.qualifies Fixture.flat_inv (Airport.location Fixture.kvps) Fixture.kvps
   = true ->
   Py.len Fixture.catalog <= 2 ->
   In (AeroData.measure Fixture.flat_inv (Airport.location Fixture.kvps)
         Fixture.kvps) Fixture.nearest2).
Proof.
  apply (QueryClaims.nearestApts_measures
           Fixture.flat_inv Fixture.catalog "KVPS" 2 Fixture.kvps).
  - reflexivity.
  - vm_compute. reflexivity.
Defined.


(** The claim of C7 expects a typed malformed-record error.  A file that
    ends inside a facility's block makes the scan index past the last line:
    the parser fails with [IndexError]. *)
Lemma truncated_file_raises_IndexError :
  AeroData.parseAirports [Fixture.kvps_line] = Err IndexError /\
  AeroData.parseAirports Fixture.truncated_lines = Err IndexError.
Proof. split; vm_compute; reflexivity. Qed.

Lemma parseAirports_runs_off_the_end_witness :
  AeroData.parseAirports Fixture.truncated_lines = Err IndexError.
Proof.
  apply (ParseClaims.parseAirports_runs_off_the_end Fixture.truncated_lines 1).
  - vm_compute. auto.
  - intros H. vm_compute in H.
    repeat match goal with
           | H : Exists _ _ |- _ => inversion H; clear H; subst
           end; discriminate.
  - intros j Hj _. vm_compute in Hj. destruct Hj as [<-|[]].
    eexists. vm_compute. reflexivity.
Defined.

Lemma parseAirports_identifier_witness :
  Forall2 (fun i a =>
             let raw := Py.slice 27 31 (nth i Fixture.lines "") in
             Airport.icao_ident a = Spec.normalize (Py.rstrip raw) /\
             (String.length (Py.rstrip raw) = 3%nat ->
              Airport.icao_ident a = "K" ++ Py.rstrip raw) /\
             (String.length (Py.rstrip raw) = 4%nat ->
              Airport.icao_ident a = raw))
          (Spec.facility_positions Fixture.lines) Fixture.parsed.
Proof.
  apply (ParseClaims.parseAirports_identifier Fixture.lines Fixture.parsed).
  vm_compute. reflexivity.
Defined.

Lemma nearestApts_total_iff_witness :
  ((exists res, AeroData.nearestApts Fixture.flat_inv
                  (Fixture.kbad :: Fixture.catalog) "KVPS" 20 = Ok res) <->
   Spec.lengths_parse (Fixture.kbad :: Fixture.catalog)) /\
  (~ Spec.lengths_parse (Fixture.kbad :: Fixture.catalog) ->
   exists s, Py.int s = None /\
     AeroData.nearestApts Fixture.flat_inv
       (Fixture.kbad :: Fixture.catalog) "KVPS" 20
     = Err (ValueError (InvalidIntLiteral s))).
Proof.
  apply (QueryClaims.nearestApts_total_iff
           Fixture.flat_inv (Fixture.kbad :: Fixture.catalog) "KVPS" 20
           Fixture.kvps).
  reflexivity.
Defined.

(** The two sample identifiers: "VPS" becomes "KVPS", "PHNL" is kept. *)
Example parsed_identifiers :
  map Airport.icao_ident Fixture.parsed = ["KVPS"; "PHNL"].
Proof. reflexivity. Qed.

(** The two sample tokens: "CONC-G" and "TURF". *)
Example surface_cond_samples :
  let r1 := AeroData.decode_runway
              (Fixture.rwy_line "12/30" "12005" " 300" "CONC-G") in
  let r2 := AeroData.decode_runway
              (Fixture.rwy_line "XX" "  900" "  50" "TURF") in
  (Runway.surface r1, Runway.cond r1) = ("CONC", "G") /\
  (Runway.surface r2, Runway.cond r2) = ("TURF", "").
Proof. split; vm_compute; reflexivity. Qed.

(** The coordinates of the sample facility line. *)
Example kvps_coordinates :
  AeroData.convertToDeg "30-28-59.4000N" "086-31-30.9000W"
  = Ok (0x1.e7bb0cf87d9c5p+4, -0x1.5a19db22d0e56p+6)%float.
Proof. vm_compute. reflexivity. Qed.

(** A blank and a non-numeric length field are no integers. *)
Example blank_length_is_no_integer :
  Py.int "" = None /\ Py.int "     " = None /\ Py.int "12A" = None /\
  AeroData.nearestApts Fixture.flat_inv (Fixture.catalog ++ [Fixture.kbad])
    "KVPS" 20 = Err (ValueError (InvalidIntLiteral "")).
Proof. repeat split; vm_compute; reflexivity. Qed.

(** * Further properties of the queries *)

Module QueryExtras.
Import FloatOrder PyFacts AeroDataFacts QueryClaims.

Lemma find_airport_Some airports icao_ident a :
  AvData.find_airport airports icao_ident = Some a ->
  exists before after, airports = (before ++ a :: after)%list /\
    Spec.matches icao_ident a /\
    Forall (fun b => ~ Spec.matches icao_ident b) before.
Proof.
  induction airports as [|b airports IH]; simpl; [discriminate|].
  destruct (String.eqb_spec (Py.upper (Airport.icao_ident b)) (Py.upper icao_ident))
    as [E|E].
  - intros [= <-]. exists [], airports. repeat split; [exact E|constructor].
  - intros H. destruct (IH H) as (before & after & -> & Hm & Hb).
    exists (b :: before), after. repeat split; [exact Hm|now constructor].
Qed.

Lemma find_airport_None airports icao_ident :
  AvData.find_airport airports icao_ident = None <->
  Forall (fun b => ~ Spec.matches icao_ident b) airports.
Proof.
  induction airports as [|b airports IH]; simpl.
  - split; auto.
  - destruct (String.eqb_spec (Py.upper (Airport.icao_ident b)) (Py.upper icao_ident))
      as [E|E].
    + split; [discriminate|]. intros H. inversion H. contradiction.
    + rewrite IH. split; [now constructor|]. intros H. now inversion H.
Qed.

(** X1.  [get_data] returns the first facility of the catalog whose
    identifier equals the requested one up to case, and raises the
    [ValueError] of a missing airport exactly when no facility matches. *)
Theorem get_data_first_match airports icao_ident :
  match AvData.get_data airports icao_ident with
  | Ok a =>
      exists before after, airports = (before ++ a :: after)%list /\
        Py.upper (Airport.icao_ident a) = Py.upper icao_ident /\
        Forall (fun b => Py.upper (Airport.icao_ident b) <> Py.upper icao_ident)
               before
  | Err e =>
      e = ValueError (AirportNotFound icao_ident) /\
      Forall (fun b => Py.upper (Airport.icao_ident b) <> Py.upper icao_ident)
             airports
  end.
Proof.
  unfold AvData.get_data.
  destruct (AvData.find_airport airports icao_ident) as [a|] eqn:F.
  - apply find_airport_Some in F. exact F.
  - apply find_airport_None in F. auto.
Qed.

Lemma avdata_longest_eq rwys l : AvData.longest rwys l = AeroData.longest rwys l.
Proof.
  revert l. induction rwys as [|r rwys IH]; intros l; simpl; [reflexivity|].
  destruct (_ && _)%bool; [|apply IH].
  destruct (int_ (Runway.length r)); simpl; [apply IH|reflexivity].
Qed.

Section Collect.
Variable inv : float -> float -> float -> float -> float * float * float.

Lemma collect_value sel min_rwy_length airports nearest :
  AvData.collect inv sel (Airport.location sel) min_rwy_length airports
  = Ok nearest ->
  nearest = repeat (sel, Spec.self_dist inv sel)
              (List.length (filter (Spec.long_enough min_rwy_length) airports)).
Proof.
  revert nearest. induction airports as [|apt airports IH]; simpl; intros nearest.
  - intros [= <-]. reflexivity.
  - rewrite avdata_longest_eq.
    destruct (AeroData.longest (Airport.rwys apt) 0) as [l|e] eqn:L; simpl;
      [|discriminate].
    apply longest_value in L; [|lia].
    assert (Hl : l = Spec.usable_runway_length apt).
    { subst l. apply Z.max_r, usable_nonneg. }
    unfold Spec.self_dist in *.
    destruct (inv _ _ _ _) as [[fwd_az back_az] dist]. simpl in *.
    destruct (AvData.collect inv sel (Airport.location sel) min_rwy_length airports)
      as [tail|e] eqn:C; simpl; [|discriminate].
    rewrite (IH tail eq_refl).
    assert (Hq : Spec.long_enough min_rwy_length apt = (min_rwy_length <=? l)%Z).
    { unfold Spec.long_enough. now rewrite <- Hl. }
    rewrite Hq.
    destruct (min_rwy_length <=? l)%Z; intros [= <-]; reflexivity.
Qed.

Lemma collect_ok sel loc min_rwy_length airports :
  Spec.lengths_parse airports ->
  exists nearest, AvData.collect inv sel loc min_rwy_length airports = Ok nearest.
Proof.
  induction 1 as [|a apts Ha H [tail IH]]; simpl; [eauto|].
  rewrite avdata_longest_eq.
  destruct (longest_ok _ 0 Ha) as [l ->]. simpl.
  destruct (inv _ _ _ _) as [[fwd_az back_az] dist].
  rewrite IH. simpl. eauto.
Qed.

Lemma collect_err sel loc min_rwy_length airports :
  ~ Spec.lengths_parse airports ->
  exists s, Py.int s = None /\
    AvData.collect inv sel loc min_rwy_length airports
    = Err (ValueError (InvalidIntLiteral s)).
Proof.
  induction airports as [|a apts IH]; simpl; intros H.
  - elim H. constructor.
  - rewrite avdata_longest_eq.
    destruct (lengths_ok_dec (Airport.rwys a)) as [Ha|Ha].
    + destruct (longest_ok _ 0 Ha) as [l ->]. simpl.
      destruct (inv _ _ _ _) as [[fwd_az back_az] dist].
      destruct IH as (s & Hs & ->).
      { intros H'. apply H. now constructor. }
      simpl. eauto.
    + destruct (longest_err _ 0 Ha) as (s & Hs & ->). simpl. eauto.
Qed.

Lemma ltb_irrefl x : (x <? x)%float = false.
Proof.
  destruct (x <? x)%float eqn:E; [|reflexivity].
  now rewrite (ltb_asym _ _ E) in E.
Qed.

Lemma sorted_repeat {A : Type} (key : A -> float) x n :
  Py.sorted key (repeat x n) = repeat x n.
Proof.
  induction n as [|n IH]; simpl; [reflexivity|]. rewrite IH.
  destruct n; simpl; [reflexivity|]. now rewrite ltb_irrefl.
Qed.

Lemma firstn_repeat {A : Type} (x : A) n m :
  firstn n (repeat x m) = repeat x (Nat.min n m).
Proof.
  revert m. induction n as [|n IH]; intros [|m]; simpl; try reflexivity.
  now rewrite IH.
Qed.

Lemma select_value airports icao_ident num min_rwy_length sel res :
  0 <= num ->
  AvData.find_airport airports icao_ident = Some sel ->
  AvData.select inv airports icao_ident num min_rwy_length = Ok res ->
  res = repeat (sel, Spec.self_dist inv sel)
          (Z.to_nat (Z.min num
             (Py.len (filter (Spec.long_enough min_rwy_length) airports)))).
Proof.
  intros Hnum Hf. unfold AvData.select. rewrite Hf.
  destruct (AvData.collect _ _ _ _ _) as [nearest|e] eqn:C; simpl; [|discriminate].
  apply collect_value in C. subst nearest. rewrite sorted_repeat.
  intros [= <-]. unfold Py.len. rewrite repeat_length.
  rewrite slice_to_firstn by lia. rewrite firstn_repeat. f_equal. lia.
Qed.
End Collect.

Lemma lengths_parse_dec apts :
  Spec.lengths_parse apts \/ ~ Spec.lengths_parse apts.
Proof.
  induction apts as [|a apts [IH|IH]].
  - left. constructor.
  - destruct (lengths_ok_dec (Airport.rwys a)) as [Ha|Ha].
    + left. now constructor.
    + right. intros H. inversion H. contradiction.
  - right. intros H. inversion H. contradiction.
Qed.

(** X2.  [nearest_airports] raises the [ValueError] of a missing airport
    exactly when no facility of the catalog has the requested identifier up
    to case; no other failure of the method has that form. *)
Theorem nearest_airports_missing_origin
  inv airports icao_ident num min_rwy_length return_string get_centers :
  Forall (fun b => Py.upper (Airport.icao_ident b) <> Py.upper icao_ident)
         airports <->
  AvData.nearest_airports inv airports icao_ident num min_rwy_length
    return_string get_centers
  = Err (ValueError (AirportNotFound icao_ident)).
Proof.
  unfold AvData.nearest_airports, AvData.select.
  rewrite <- (find_airport_None airports icao_ident : _ <-> Forall _ airports).
  destruct (AvData.find_airport airports icao_ident) as [sel|] eqn:F.
  - split; [discriminate|].
    destruct (lengths_parse_dec airports) as [D|D].
    + destruct (collect_ok inv sel (Airport.location sel) min_rwy_length _ D)
        as [nearest ->]. simpl. destruct return_string; discriminate.
    + destruct (collect_err inv sel (Airport.location sel) min_rwy_length _ D)
        as (s & _ & ->). simpl. discriminate.
  - simpl. tauto.
Qed.

(** X3.  [nearestApts] fails with [AttributeError] (the read of
    [location] from [None]) exactly when no facility of the catalog has the
    requested identifier, compared as it is written. *)
Theorem nearestApts_missing_origin inv apts aptID num :
  Forall (fun a => Airport.icao_ident a <> aptID) apts <->
  AeroData.nearestApts inv apts aptID num = Err AttributeError.
Proof.
  rewrite <- find_apt_None. unfold AeroData.nearestApts.
  destruct (AeroData.find_apt apts aptID) as [myApt|] eqn:F.
  - split; [discriminate|].
    destruct (lengths_parse_dec apts) as [D|D].
    + destruct (candidates_ok inv (Airport.location myApt) _ D) as [found ->].
      simpl. discriminate.
    + destruct (candidates_err inv (Airport.location myApt) _ D) as (s & _ & ->).
      simpl. discriminate.
  - tauto.
Qed.

Lemma StronglySorted_app {A : Type} (R : A -> A -> Prop) l1 l2 :
  StronglySorted R (l1 ++ l2) ->
  forall x y, In x l1 -> In y l2 -> R x y.
Proof.
  induction l1 as [|a l1 IH]; simpl; intros H x y Hx Hy; [contradiction|].
  inversion H as [|? ? Hs Ha]; subst. destruct Hx as [<-|Hx].
  - rewrite Forall_forall in Ha. apply Ha, in_or_app. now right.
  - now apply IH.
Qed.

(** X4.  With a count that is not negative and ranges that are numbers,
    [nearestApts] returns the [num] closest: as many entries as the smaller
    of [num] and the number of qualifying entries; the result and the
    qualifying entries it leaves out make up the qualifying entries, and no
    entry left out is nearer than an entry returned. *)
Theorem nearestApts_closest inv apts aptID num myApt res :
  0 <= num ->
  AeroData.find_apt apts aptID = Some myApt ->
  Forall (fun a => PrimFloat.is_nan
            (AeroData.range (AeroData.measure inv (Airport.location myApt) a))
            = false) apts ->
  AeroData.nearestApts inv apts aptID num = Ok res ->
  Py.len res =
    Z.min num (Py.len (Spec.qualifying inv (Airport.location myApt) apts)) /\
  exists rest,
    Permutation (res ++ rest)
      (Spec.qualifying inv (Airport.location myApt) apts) /\
    forall e e', In e res -> In e' rest -> Spec.le_range e e'.
Proof.
  intros Hnum Hf Hnan Hres.
  pose proof (nearestApts_value _ _ _ _ _ _ Hf Hres) as E. cbv zeta in E.
  set (Q := Spec.qualifying inv (Airport.location myApt) apts) in *.
  assert (HQ : Forall (fun e => notnan (AeroData.range e)) Q).
  { rewrite Forall_forall in Hnan |- *. intros e He.
    apply In_qualifying in He. destruct He as (a & Ha & _ & ->).
    now apply Hnan. }
  pose proof (sorted_sorted AeroData.range Q HQ) as Hs.
  split.
  { subst res. rewrite slice_to_len by (unfold Py.len; lia).
    unfold Py.len. rewrite sorted_length. lia. }
  rewrite slice_to_firstn in E by (unfold Py.len; lia).
  set (k := Z.to_nat _) in E.
  exists (skipn k (Py.sorted AeroData.range Q)). subst res. split.
  - rewrite firstn_skipn. symmetry. apply sorted_perm.
  - apply (StronglySorted_app (le_key AeroData.range)).
    now rewrite firstn_skipn.
Qed.

(** X5.  A negative count is a slice bound counted from the end:
    [nearestApts] then drops the [-num] farthest qualifying entries (all of
    them when there are at most [-num]) and returns the others. *)
Theorem nearestApts_negative_num inv apts aptID num myApt res :
  num < 0 ->
  AeroData.find_apt apts aptID = Some myApt ->
  AeroData.nearestApts inv apts aptID num = Ok res ->
  Py.len res =
    Z.max 0 (Py.len (Spec.qualifying inv (Airport.location myApt) apts) + num) /\
  exists dropped,
    Permutation (res ++ dropped)
      (Spec.qualifying inv (Airport.location myApt) apts) /\
    Py.len dropped =
      Z.min (- num)
        (Py.len (Spec.qualifying inv (Airport.location myApt) apts)) /\
    forall e e', In e res -> In e' dropped -> Spec.le_range e e'.
Proof.
  intros Hnum Hf Hres.
  pose proof (nearestApts_value _ _ _ _ _ _ Hf Hres) as E. cbv zeta in E.
  set (Q := Spec.qualifying inv (Airport.location myApt) apts) in *.
  pose proof (qualifying_notnan inv (Airport.location myApt) apts) as HQ.
  fold Q in HQ.
  pose proof (sorted_sorted AeroData.range Q HQ) as Hs.
  rewrite Z.min_l in E by (unfold Py.len; lia).
  split.
  { subst res. rewrite slice_to_neg_len by assumption.
    unfold Py.len. now rewrite sorted_length. }
  unfold Py.slice_to in E.
  replace (num <? 0)%Z with true in E by (symmetry; now apply Z.ltb_lt).
  set (k := Z.to_nat _) in E.
  exists (skipn k (Py.sorted AeroData.range Q)). subst res. repeat split.
  - rewrite firstn_skipn. symmetry. apply sorted_perm.
  - unfold Py.len. rewrite length_skipn. subst k. unfold Py.len.
    rewrite sorted_length. lia.
  - apply (StronglySorted_app (le_key AeroData.range)).
    now rewrite firstn_skipn.
Qed.

Lemma gather_centers_repeat (x : Airport.Airport * float) n :
  AvData.gather_centers (repeat x n) [Airport.responsible_artcc (fst x)]
  = [Airport.responsible_artcc (fst x)].
Proof.
  induction n as [|n IH]; simpl; [reflexivity|].
  now rewrite String.eqb_refl.
Qed.

(** X6.  The loop of [nearest_airports] appends the origin for every
    facility that is long enough (it reads the variable of the lookup loop,
    not the loop's own).  With a count that is not negative the result is
    the origin, or its identifier, as many times as the smaller of the count
    and the number of facilities with a long enough runway, followed by the
    origin's center when centers are asked for and the list is not empty. *)
Theorem nearest_airports_output
  inv airports icao_ident num min_rwy_length return_string get_centers sel res :
  0 <= num ->
  AvData.find_airport airports icao_ident = Some sel ->
  AvData.nearest_airports inv airports icao_ident num min_rwy_length
    return_string get_centers = Ok res ->
  let k := Z.to_nat (Z.min num
             (Py.len (filter (Spec.long_enough min_rwy_length) airports))) in
  res = (repeat (if return_string
                 then AvData.Text (Airport.icao_ident sel)
                 else AvData.Facility sel) k
         ++ (if get_centers && (0 <? k)%nat
             then [AvData.Text (Airport.responsible_artcc sel)] else []))%list.
Proof.
  intros Hnum Hf. unfold AvData.nearest_airports.
  destruct (AvData.select inv airports icao_ident num min_rwy_length)
    as [apts_sorted|e] eqn:S0; simpl; [|discriminate].
  apply (select_value inv _ _ _ _ sel _ Hnum Hf) in S0.
  set (k := Z.to_nat _) in *. subst apts_sorted. cbv zeta.
  assert (Hc : (if get_centers
                then AvData.gather_centers (repeat (sel, Spec.self_dist inv sel) k) []
                else []) =
               if get_centers && (0 <? k)%nat
               then [Airport.responsible_artcc sel] else []).
  { destruct get_centers; [|reflexivity]. destruct k as [|k]; [reflexivity|].
    simpl. apply (gather_centers_repeat (sel, Spec.self_dist inv sel)). }
  rewrite Hc.
  assert (Hm : forall (f : Airport.Airport * float -> AvData.item),
             map f (repeat (sel, Spec.self_dist inv sel) k)
             = repeat (f (sel, Spec.self_dist inv sel)) k).
  { intros f. apply map_repeat. }
  destruct return_string; intros [= <-]; rewrite Hm; simpl;
    destruct (get_centers && (0 <? k)%nat)%bool; reflexivity.
Qed.

Lemma gather_centers_acc l centers :
  NoDup centers ->
  NoDup (AvData.gather_centers l centers) /\
  (forall c, In c (AvData.gather_centers l centers) <->
     In c centers \/
     exists e, In e l /\ Airport.responsible_artcc (fst e) = c) /\
  exists added, AvData.gather_centers l centers = (centers ++ added)%list.
Proof.
  revert centers. induction l as [|e l IH]; intros centers Hn; simpl.
  - repeat split; auto.
    + intros [H|(e & [] & _)]; assumption.
    + exists []. now rewrite app_nil_r.
  - destruct (existsb _ centers) eqn:E.
    + destruct (IH centers Hn) as (H1 & H2 & H3). repeat split; auto.
      * intros H. apply H2 in H. destruct H as [H|(e' & He' & <-)]; eauto.
      * intros [H|(e' & [<-|He'] & <-)].
        -- apply H2. now left.
        -- apply H2. left. apply existsb_exists in E.
           destruct E as (c & Hc & Ec). apply String.eqb_eq in Ec. now subst.
        -- apply H2. eauto.
    + assert (Hn' : NoDup (centers ++ [Airport.responsible_artcc (fst e)])).
      { apply NoDup_app; [assumption|repeat constructor; auto|].
        intros c Hc [<-|[]].
        assert (F : existsb (String.eqb (Airport.responsible_artcc (fst e))) centers
                    = true).
        { apply existsb_exists. exists (Airport.responsible_artcc (fst e)).
          split; [assumption|apply String.eqb_refl]. }
        congruence. }
      destruct (IH _ Hn') as (H1 & H2 & added & H3). repeat split; auto.
      * intros H. apply H2 in H. destruct H as [H|(e' & He' & <-)]; eauto.
        apply in_app_or in H. destruct H as [H|[<-|[]]]; eauto.
      * intros [H|(e' & [<-|He'] & <-)]; apply H2.
        -- left. apply in_or_app. now left.
        -- left. apply in_or_app. right. now left.
        -- eauto.
      * exists (Airport.responsible_artcc (fst e) :: added).
        rewrite H3, <- app_assoc. reflexivity.
Qed.

(** X7.  The centers [nearest_airports] gathers hold no center twice, and
    are the responsible centers of the listed facilities. *)
Theorem gather_centers_distinct l :
  NoDup (AvData.gather_centers l []) /\
  forall c, In c (AvData.gather_centers l []) <->
            exists e, In e l /\ Airport.responsible_artcc (fst e) = c.
Proof.
  destruct (gather_centers_acc l [] (NoDup_nil _)) as (H1 & H2 & _).
  split; [assumption|]. intros c. rewrite H2. simpl. tauto.
Qed.

(** In a catalog whose identifiers differ up to case the lookup of a
    facility's identifier finds that facility. *)
Lemma find_airport_unique airports a :
  NoDup (map (fun b => Py.upper (Airport.icao_ident b)) airports) ->
  In a airports ->
  AvData.find_airport airports (Airport.icao_ident a) = Some a.
Proof.
  induction airports as [|b airports IH]; simpl; [contradiction|].
  intros Hn Ha. inversion Hn as [|? ? Hb Hn']; subst.
  destruct (String.eqb_spec (Py.upper (Airport.icao_ident b))
                            (Py.upper (Airport.icao_ident a))) as [E|E].
  - destruct Ha as [->|Ha]; [reflexivity|]. elim Hb. rewrite E.
    now apply (in_map (fun b => Py.upper (Airport.icao_ident b))).
  - destruct Ha as [->|Ha]; [congruence|]. now apply IH.
Qed.

(** X8.  In a catalog whose identifiers differ up to case, [bearing_range]
    and [nearestApts] agree: for every entry of a result of [nearestApts],
    [bearing_range] from the origin of the query to the facility of the
    entry returns the bearing and the range of the entry (the one adds the
    azimuth to 360 where the other adds 360 to the azimuth). *)
Theorem bearing_range_agrees_with_nearestApts
  inv apts aptID num res e :
  NoDup (map (fun a => Py.upper (Airport.icao_ident a)) apts) ->
  AeroData.nearestApts inv apts aptID num = Ok res ->
  In e res ->
  AvData.bearing_range inv apts aptID
    (Airport.icao_ident (AeroData.facility e))
  = Ok (AeroData.bearing e, AeroData.range e).
Proof.
  intros Hn Hres He.
  destruct (AeroData.find_apt apts aptID) as [myApt|] eqn:Hf.
  2:{ unfold AeroData.nearestApts in Hres. rewrite Hf in Hres.
      discriminate. }
  pose proof (nearestApts_value _ _ _ _ _ _ Hf Hres) as E. cbv zeta in E.
  assert (HQ : In e (Spec.qualifying inv (Airport.location myApt) apts)).
  { apply (sorted_In AeroData.range). rewrite E in He. revert He.
    apply In_slice_to. }
  apply In_qualifying in HQ. destruct HQ as (a & Ha & _ & ->).
  rewrite measure_facility.
  apply find_apt_In in Hf. destruct Hf as [Hm <-].
  unfold AvData.bearing_range, AvData.get_data.
  rewrite (find_airport_unique _ _ Hn Hm), (find_airport_unique _ _ Hn Ha).
  simpl. unfold AeroData.measure, AeroData.bearing, AeroData.range.
  destruct (inv _ _ _ _) as [[fwd_az back_az] dist]. simpl.
  now rewrite (add_comm 360 fwd_az).
Qed.

End QueryExtras.

(** * Further properties of the parser *)

Module ParseExtras.
Import StringFacts ParseFacts.

(** X9.  [parseAirports] returns a catalog exactly when every facility
    line decodes and has a boundary line after it; the catalog then has one
    facility for every line tagged [APT]. *)
Theorem parseAirports_succeeds_iff lines :
  ((exists airports, AeroData.parseAirports lines = Ok airports) <->
   Forall (fun i =>
             (exists a0, AeroData.decode_facility (nth i lines "") = Ok a0) /\
             Spec.bounded lines i)
          (Spec.facility_positions lines)) /\
  (forall airports, AeroData.parseAirports lines = Ok airports ->
     List.length airports = List.length (Spec.facility_positions lines)).
Proof.
  split; [split|].
  - intros [airports H]. apply parse_from_decoded in H.
    induction H as [|i a l l' [(a0 & D & _) B] _ IH]; constructor; eauto.
  - apply parse_from_ok.
  - intros airports H. apply parse_from_decoded in H. symmetry.
    induction H; simpl; congruence.
Qed.

Lemma int_body_error s e :
  int_ s = Err e -> e = ValueError (InvalidIntLiteral s).
Proof. unfold int_. destruct (Py.int s); [discriminate|]. now intros [= <-]. Qed.

Lemma float_body_error s e :
  float_ s = Err e -> e = ValueError (InvalidFloatLiteral s).
Proof. unfold float_. destruct (Py.float s); [discriminate|]. now intros [= <-]. Qed.

Lemma last_char_error s e : Py.last_char s = Err e -> s = "".
Proof.
  induction s as [|c s IH]; [reflexivity|]. simpl.
  destruct s; [discriminate|]. intros H. specialize (IH H). discriminate.
Qed.

(** X10.  [convertToDeg] fails only with the [ValueError] of [int] or
    [float] on one of the fields it slices. *)
Theorem convertToDeg_raises_ValueError s1 s2 e :
  AeroData.convertToDeg s1 s2 = Err e ->
  exists s, e = ValueError (InvalidIntLiteral s) \/
            e = ValueError (InvalidFloatLiteral s).
Proof.
  unfold AeroData.convertToDeg.
  destruct (int_ (Py.slice 0 2 s1)) as [d1|e1] eqn:E1; simpl;
    [|intros [= <-]; apply int_body_error in E1; eauto].
  destruct (int_ (Py.slice 3 5 s1)) as [m1|e2] eqn:E2; simpl;
    [|intros [= <-]; apply int_body_error in E2; eauto].
  destruct (float_ (Py.slice 6 13 s1)) as [x1|e3] eqn:E3; simpl;
    [|intros [= <-]; apply float_body_error in E3; eauto].
  destruct (Py.last_char s1) as [h1|e4] eqn:E4; simpl.
  2:{ apply last_char_error in E4. subst s1. discriminate. }
  destruct (int_ (Py.slice 0 3 s2)) as [d2|e5] eqn:E5; simpl;
    [|intros [= <-]; apply int_body_error in E5; eauto].
  destruct (int_ (Py.slice 4 6 s2)) as [m2|e6] eqn:E6; simpl;
    [|intros [= <-]; apply int_body_error in E6; eauto].
  destruct (float_ (Py.slice 7 14 s2)) as [x2|e7] eqn:E7; simpl;
    [|intros [= <-]; apply float_body_error in E7; eauto].
  destruct (Py.last_char s2) as [h2|e8] eqn:E8; simpl; [discriminate|].
  apply last_char_error in E8. subst s2. discriminate.
Qed.

(** X11.  One facility line whose coordinates do not convert aborts the
    whole parse: when the facility lines before it decode, [parseAirports]
    fails with the error of [convertToDeg] on that line, and no catalog is
    returned. *)
Theorem parseAirports_aborts_on_bad_coordinates lines i e :
  In i (Spec.facility_positions lines) ->
  AeroData.convertToDeg (Py.slice 523 537 (nth i lines ""))
                        (Py.slice 550 565 (nth i lines "")) = Err e ->
  (forall j, In j (Spec.facility_positions lines) -> (j < i)%nat ->
     exists a0, AeroData.decode_facility (nth j lines "") = Ok a0) ->
  AeroData.parseAirports lines = Err e.
Proof.
  unfold AeroData.parseAirports. revert i.
  induction lines as [|line rest IH]; intros i Hi He Hd.
  - inversion Hi.
  - rewrite facility_positions_cons in Hi, Hd. simpl.
    destruct (tag line =? "APT") eqn:T.
    + destruct Hi as [<-|Hi].
      * simpl in He. unfold AeroData.decode_facility. rewrite He. reflexivity.
      * apply in_map_iff in Hi. destruct Hi as (i' & <- & Hi').
        destruct (Hd 0%nat) as [a0 D]; [now left|lia|]. simpl in D.
        rewrite D. simpl.
        assert (R : Airport.rwys a0 = []).
        { unfold AeroData.decode_facility in D.
          destruct (AeroData.convertToDeg (Py.slice 523 537 line)
                      (Py.slice 550 565 line)); simpl in D; [|discriminate].
          injection D as <-. reflexivity. }
        assert (B : Exists (fun l => AeroData.is_boundary l = true) rest).
        { unfold Spec.facility_positions in Hi'. apply filter_In in Hi'.
          destruct Hi' as [Hs Ht]. apply in_seq in Hs.
          apply Exists_exists. exists (nth i' rest ""). split.
          - apply nth_In. lia.
          - now apply apt_is_boundary. }
        rewrite (scan_runways_ok _ _ B). simpl.
        rewrite (IH i'); [reflexivity|assumption|exact He|].
        intros j Hj Hlt. destruct (Hd (S j)) as [a1 D1]; eauto.
        -- right. now apply in_map.
        -- lia.
    + simpl in Hi. apply in_map_iff in Hi. destruct Hi as (i' & <- & Hi').
      apply (IH i'); [assumption|exact He|].
      intros j Hj Hlt. destruct (Hd (S j)) as [a1 D1]; eauto.
      * simpl. now apply in_map.
      * lia.
Qed.

(** X12.  The responsible center of every parsed facility is columns
    674-677 of its line, stripped on the right, with [K] put before a
    three-character value. *)
Theorem parseAirports_responsible_artcc lines airports :
  AeroData.parseAirports lines = Ok airports ->
  Forall2 (fun i a =>
             Airport.responsible_artcc a
             = Spec.normalize (Py.rstrip (Py.slice 674 678 (nth i lines ""))))
          (Spec.facility_positions lines) airports.
Proof.
  intros H. apply parse_from_decoded in H. revert H. apply Forall2_impl.
  intros i a [(a0 & D & ->) _]. simpl.
  unfold AeroData.decode_facility in D.
  destruct (AeroData.convertToDeg _ _); simpl in D; [|discriminate].
  injection D as <-. reflexivity.
Qed.
End ParseExtras.

(** * The dataset cycle *)

Module CycleFacts.
Import Cycle.

Lemma period_pos : 0 < Spec.period.
Proof. reflexivity. Qed.

Lemma advance_steps t n k fuel :
  t <= Spec.period * (datetime_max / Spec.period) ->
  0 <= k -> k + Z.of_nat n = Spec.cycles_before t ->
  advance (S n + fuel) t (Spec.period * k) (Spec.period * (k + 1))
  = Some (Returned (Spec.period * Spec.cycles_before t)).
Proof.
  intros Ht. revert k. induction n as [|n IH]; intros k Hk E.
  - cbn [Nat.add advance]. rewrite Z.add_0_r in E. subst k.
    assert (H : (Spec.period * (Spec.cycles_before t + 1) <? t)%Z = false).
    { apply Z.ltb_ge. unfold Spec.cycles_before.
      pose proof (Z.mul_succ_div_gt (t - 1) Spec.period period_pos).
      pose proof period_pos. nia. }
    now rewrite H.
  - cbn [Nat.add advance].
    assert (Hc : Spec.cycles_before t = (t - 1) / Spec.period).
    { unfold Spec.cycles_before in *. lia. }
    assert (H : (Spec.period * (k + 1) <? t)%Z = true).
    { apply Z.ltb_lt.
      pose proof (Z.mul_div_le (t - 1) Spec.period period_pos).
      pose proof period_pos. nia. }
    rewrite H. fold Spec.period.
    assert (H2 : (datetime_max <? Spec.period * (k + 1) + Spec.period)%Z = false).
    { apply Z.ltb_ge.
      pose proof (Z.mul_div_le datetime_max Spec.period period_pos).
      pose proof (Z.mul_div_le (t - 1) Spec.period period_pos).
      assert ((t - 1) / Spec.period < datetime_max / Spec.period).
      { apply Z.div_lt_upper_bound; [apply period_pos|].
        pose proof period_pos. nia. }
      pose proof period_pos. nia. }
    rewrite H2.
    replace (Spec.period * (k + 1) + Spec.period) with (Spec.period * (k + 1 + 1)) by ring.
    apply IH; lia.
Qed.

(** X13.  For a date up to the last whole cycle that fits below
    [datetime.max], the loop of [generateURL] ends and the address names the
    start of the cycle that holds the date: the latest cycle start strictly
    before it, and the anchor itself for a date within the first cycle or
    before the anchor. *)
Theorem generateURL_cycle (strftime : Z -> string) (t : Z) :
  t <= Spec.period * (datetime_max / Spec.period) ->
  exists fuel0, forall fuel, (fuel0 <= fuel)%nat ->
    generateURL strftime fuel t
    = Some (Some
        ("https://nfdc.faa.gov/webContent/28DaySub/28DaySubscription_Effective_"
           ++ strftime (Spec.period * Spec.cycles_before t) ++ ".zip")) /\
    (Spec.period < t -> Spec.period * Spec.cycles_before t < t <= Spec.period * Spec.cycles_before t + Spec.period) /\
    (t <= Spec.period -> Spec.cycles_before t = 0).
Proof.
  intros Ht. exists (S (Z.to_nat (Spec.cycles_before t))). intros fuel Hfuel.
  split; [|split].
  - unfold generateURL.
    replace fuel with (S (Z.to_nat (Spec.cycles_before t))
                       + (fuel - S (Z.to_nat (Spec.cycles_before t))))%nat by lia.
    change (0 + timedelta_days 28) with (Spec.period * (0 + 1)).
    change 0 with (Spec.period * 0) at 1.
    rewrite (advance_steps t _ 0 _ Ht); [reflexivity|lia|].
    unfold Spec.cycles_before. lia.
  - intros H. unfold Spec.cycles_before.
    pose proof (Z.mul_div_le (t - 1) Spec.period period_pos).
    pose proof (Z.mul_succ_div_gt (t - 1) Spec.period period_pos).
    assert (0 <= (t - 1) / Spec.period).
    { apply Z.div_pos; [|apply period_pos]. pose proof period_pos. lia. }
    rewrite Z.max_r by assumption. nia.
  - intros H. unfold Spec.cycles_before.
    assert ((t - 1) / Spec.period <= 0).
    { assert ((t - 1) / Spec.period < 1); [|lia].
      apply Z.div_lt_upper_bound; [apply period_pos|]. lia. }
    lia.
Qed.
End CycleFacts.

(** * Preflight and the NOTAM loop *)

Module PreflightFacts.

Lemma add_centers_acc apts listed :
  exists centers,
    Preflight.add_centers apts listed = (listed ++ centers)%list /\
    NoDup centers /\
    (forall c, In c centers -> ~ In c listed) /\
    (forall c, In c centers -> exists apt, In apt apts /\ Spec.center apt = c) /\
    (forall apt, In apt apts -> In (Spec.center apt) (listed ++ centers)%list).
Proof.
  revert listed. induction apts as [|apt apts IH]; intros listed; simpl.
  - exists []. rewrite app_nil_r. repeat split; try constructor; simpl; tauto.
  - fold (Spec.center apt). destruct (existsb _ listed) eqn:E.
    + destruct (IH listed) as (cs & H1 & H2 & H3 & H4 & H5).
      exists cs. repeat split; auto.
      * intros c Hc. destruct (H4 c Hc) as (a & Ha & <-). eauto.
      * intros a [<-|Ha]; [|auto]. apply in_or_app. left.
        apply existsb_exists in E. destruct E as (c & Hc & Ec).
        apply String.eqb_eq in Ec. now subst.
    + destruct (IH (listed ++ [Spec.center apt])%list) as (cs & H1 & H2 & H3 & H4 & H5).
      assert (Hn : ~ In (Spec.center apt) listed).
      { intros Hin.
        assert (F : existsb (String.eqb (Spec.center apt)) listed = true).
        { apply existsb_exists. exists (Spec.center apt).
          split; [assumption|apply String.eqb_refl]. }
        congruence. }
      exists (Spec.center apt :: cs). rewrite H1, <- app_assoc. repeat split.
      * constructor; [|assumption]. intros Hc. apply (H3 _ Hc).
        apply in_or_app. right. now left.
      * intros c [<-|Hc]; [assumption|]. intros Hl. apply (H3 _ Hc).
        apply in_or_app. now left.
      * intros c [<-|Hc]; [eauto|]. destruct (H4 c Hc) as (a & Ha & <-). eauto.
      * intros a [<-|Ha].
        -- apply in_or_app. right. now left.
        -- specialize (H5 a Ha). rewrite <- app_assoc in H5. exact H5.
Qed.

(** X14.  The list [nearestAptNotams] queries is the identifiers of the
    entries in their order, followed by centers: no center twice, none that
    is already among the identifiers, each the responsible center of an
    entry; and the responsible center of every entry is in the list. *)
Theorem facility_str_shape apts :
  exists centers,
    Preflight.facility_str apts
    = (map (fun apt => Airport.icao_ident (AeroData.facility apt)) apts
         ++ centers)%list /\
    NoDup centers /\
    (forall c, In c centers ->
       ~ In c (map (fun apt => Airport.icao_ident (AeroData.facility apt)) apts) /\
       exists apt, In apt apts /\
         Airport.responsible_artcc (AeroData.facility apt) = c) /\
    (forall apt, In apt apts ->
       In (Airport.responsible_artcc (AeroData.facility apt))
          (Preflight.facility_str apts)).
Proof.
  unfold Preflight.facility_str.
  destruct (add_centers_acc apts
              (map (fun apt => Airport.str (AeroData.facility apt)) apts))
    as (cs & H1 & H2 & H3 & H4 & H5).
  exists cs. rewrite H1. repeat split; auto.
Qed.
End PreflightFacts.

Module NotamFacts.
Import Notam.

Lemma contains_count c s : Py.contains c s = true <-> (1 <= Spec.count c s)%nat.
Proof.
  induction s as [|d s IH]; simpl; [split; [discriminate|lia]|].
  destruct (Ascii.eqb d c); simpl; [split; [lia|reflexivity]|exact IH].
Qed.

Lemma count_lstrip c s :
  Py.isspace c = false -> Spec.count c (Py.lstrip s) = Spec.count c s.
Proof.
  intros Hc. unfold Py.lstrip. induction s as [|d s IH]; simpl; [reflexivity|].
  destruct (Py.isspace d) eqn:E; [|reflexivity].
  rewrite IH. destruct (Ascii.eqb_spec d c); [congruence|reflexivity].
Qed.

Lemma count_rstrip c s :
  Py.isspace c = false -> Spec.count c (Py.rstrip s) = Spec.count c s.
Proof.
  intros Hc. unfold Py.rstrip. induction s as [|d s IH]; simpl; [reflexivity|].
  destruct (Py.rstrip_by Py.isspace s) as [|d' r] eqn:R.
  - simpl in IH. rewrite <- IH.
    destruct (Py.isspace d) eqn:E; simpl; [|reflexivity].
    destruct (Ascii.eqb_spec d c); [congruence|reflexivity].
  - cbn [Spec.count] in *. now rewrite IH.
Qed.

Lemma count_strip c s : Py.isspace c = false -> Spec.count c (strip s) = Spec.count c s.
Proof.
  intros Hc. unfold strip. now rewrite count_lstrip, count_rstrip.
Qed.

Lemma count_replace c a b s :
  c <> a -> c <> b -> Spec.count c (replace a b s) = Spec.count c s.
Proof.
  intros Ha Hb. induction s as [|d s IH]; simpl; [reflexivity|]. rewrite IH.
  destruct (Ascii.eqb_spec d a) as [->|Hd].
  - destruct (Ascii.eqb_spec b c), (Ascii.eqb_spec a c); congruence.
  - reflexivity.
Qed.

Lemma after_first_count c s :
  (1 <= Spec.count c s)%nat ->
  exists tail, after_first c s = Ok tail /\ Spec.count c s = S (Spec.count c tail).
Proof.
  induction s as [|d s IH]; simpl; [lia|].
  destruct (Ascii.eqb d c); simpl; [eauto|]. exact IH.
Qed.

Lemma hyphen_not_blank : Py.isspace "-" = false.
Proof. reflexivity. Qed.

(** The entry made of a text that holds a hyphen. *)
Lemma hyphen_entry text :
  Py.contains "-" text = true ->
  exists tail, after_first "-" (replace newline " " text) = Ok tail /\
    Spec.count "-" (strip text) = S (Spec.count "-" (strip tail)).
Proof.
  intros H. apply contains_count in H.
  destruct (after_first_count "-" (replace newline " " text)) as (tail & E & C).
  { rewrite count_replace; [assumption|discriminate|discriminate]. }
  exists tail. split; [assumption|].
  rewrite !count_strip by reflexivity.
  rewrite count_replace in C; [assumption|discriminate|discriminate].
Qed.

(** X15.  The loop of [getNotams] never fails: the split at the first
    hyphen is only made of a text that holds one. *)
Theorem getNotams_returns texts :
  exists notam_list, getNotams texts = Ok notam_list.
Proof.
  unfold getNotams. generalize (@nil string) as acc.
  induction texts as [|text rest IH]; intros acc; simpl; [eauto|].
  destruct (Py.contains "-" text) eqn:H.
  - destruct (hyphen_entry text H) as (tail & -> & _). simpl.
    destruct (negb _ && negb _)%bool; simpl; apply IH.
  - rewrite andb_false_r. destruct (negb _ && negb _)%bool; apply IH.
Qed.

End NotamFacts.

(** * The weather pages *)

Module WeatherFacts.
Import AvWeather.

Lemma lstrip_idem s : Py.lstrip (Py.lstrip s) = Py.lstrip s.
Proof.
  unfold Py.lstrip. induction s as [|c s IH]; simpl; [reflexivity|].
  destruct (Py.isspace c) eqn:E; [assumption|]. simpl. now rewrite E.
Qed.

Lemma rstrip_idem s : Py.rstrip (Py.rstrip s) = Py.rstrip s.
Proof.
  unfold Py.rstrip. induction s as [|c s IH]; simpl; [reflexivity|].
  destruct (Py.rstrip_by Py.isspace s) as [|d r] eqn:E.
  - destruct (Py.isspace c) eqn:Ec; simpl; [reflexivity|]. now rewrite Ec.
  - change (Py.rstrip_by Py.isspace (String c (String d r)))
      with (match Py.rstrip_by Py.isspace (String d r) with
            | EmptyString =>
                if Py.isspace c then EmptyString else String c EmptyString
            | r' => String c r'
            end).
    now rewrite IH.
Qed.

Lemma rstrip_lstrip s :
  Py.rstrip s = s -> Py.rstrip (Py.lstrip s) = Py.lstrip s.
Proof.
  unfold Py.rstrip, Py.lstrip. induction s as [|c s IH]; [reflexivity|].
  intros H. cbn [Py.lstrip_by]. destruct (Py.isspace c) eqn:Ec; [|exact H].
  apply IH. cbn [Py.rstrip_by] in H.
  destruct (Py.rstrip_by Py.isspace s) as [|d r].
  - rewrite Ec in H. discriminate.
  - now injection H.
Qed.

Lemma strip_idem s : Notam.strip (Notam.strip s) = Notam.strip s.
Proof.
  unfold Notam.strip.
  rewrite (rstrip_lstrip (Py.rstrip s) (rstrip_idem s)). apply lstrip_idem.
Qed.

Lemma lstrip_keeps_out c s :
  Py.contains c s = false -> Py.contains c (Py.lstrip s) = false.
Proof.
  unfold Py.lstrip. induction s as [|d s IH]; simpl; [reflexivity|].
  intros H. apply orb_false_iff in H. destruct H as [H1 H2].
  destruct (Py.isspace d); [auto|]. simpl. now rewrite H1, H2.
Qed.

Lemma rstrip_keeps_out c s :
  Py.contains c s = false -> Py.contains c (Py.rstrip s) = false.
Proof.
  unfold Py.rstrip. induction s as [|d s IH]; simpl; [reflexivity|].
  intros H. apply orb_false_iff in H. destruct H as [H1 H2].
  specialize (IH H2).
  destruct (Py.rstrip_by Py.isspace s) as [|d' r].
  - destruct (Py.isspace d); simpl; [reflexivity|]. now rewrite H1.
  - cbn [Py.contains] in *. now rewrite H1, IH.
Qed.

Lemma strip_keeps_out c s :
  Py.contains c s = false -> Py.contains c (Notam.strip s) = false.
Proof. intros H. now apply lstrip_keeps_out, rstrip_keeps_out. Qed.

Lemma contains_snoc c piece d :
  Py.contains c piece = false -> Ascii.eqb d c = false ->
  Py.contains c (piece ++ String d EmptyString) = false.
Proof.
  intros H Hd. induction piece as [|e piece IH]; simpl in *.
  - now rewrite Hd.
  - apply orb_false_iff in H. destruct H as [H1 H2]. now rewrite H1, IH.
Qed.

Lemma append_snoc piece d s :
  (piece ++ String d EmptyString) ++ s = piece ++ String d s.
Proof. induction piece; simpl; congruence. Qed.

Lemma split_pieces sep s piece :
  Py.contains sep piece = false ->
  split sep s piece <> [] /\
  Forall (fun p => Py.contains sep p = false) (split sep s piece) /\
  Notam.join (String sep EmptyString) (split sep s piece) = piece ++ s.
Proof.
  revert piece. induction s as [|c s IH]; intros piece H; simpl.
  - repeat split; [discriminate|now repeat constructor|].
    clear. induction piece; simpl; congruence.
  - destruct (Ascii.eqb_spec c sep) as [->|Hc].
    + destruct (IH EmptyString eq_refl) as (N & F & J).
      repeat split; [discriminate|now constructor|].
      destruct (split sep s EmptyString) as [|p ps]; [congruence|].
      change (Notam.join (String sep EmptyString) (piece :: p :: ps))
        with (piece ++ String sep EmptyString
                ++ Notam.join (String sep EmptyString) (p :: ps)).
      rewrite J. reflexivity.
    + destruct (IH (piece ++ String c EmptyString)) as (N & F & J).
      { apply contains_snoc; [assumption|]. now apply Ascii.eqb_neq. }
      repeat split; [assumption|assumption|]. rewrite J. apply append_snoc.
Qed.

Lemma taf_of_pieces text :
  exists pieces,
    Notam.join (String nbsp EmptyString) pieces = text /\
    Forall (fun p => Py.contains nbsp p = false) pieces /\
    taf_of text = map Notam.strip (filter nonempty pieces) /\
    Forall (fun l => Py.contains nbsp l = false /\ Notam.strip l = l)
           (taf_of text).
Proof.
  destruct (split_pieces nbsp text EmptyString eq_refl) as (N & F & J).
  exists (split nbsp text EmptyString). repeat split; try assumption.
  unfold taf_of. cbv zeta. apply Forall_forall. intros l Hl.
  apply in_map_iff in Hl. destruct Hl as (p & <- & Hp).
  apply filter_In in Hp. destruct Hp as [Hp _].
  rewrite Forall_forall in F. split.
  - apply strip_keeps_out. now apply F.
  - apply strip_idem.
Qed.

(** X18.  The TAF lines of [getMetarTaf], which are the list [AvData.taf]
    returns: no line holds a no-break space or has a blank at either end.
    With a second [code] element on the page its text is cut at the
    no-break spaces, the empty pieces are dropped and each piece left is
    stripped; without one [getMetarTaf] gives no line and [AvData.taf] a
    message. *)
Theorem taf_lines {timestamp : Type} (wx_data : list string)
  (strong : timestamp) (icao_ident : string) :
  let lines := snd (fst (getMetarTaf timestamp wx_data strong)) in
  Forall (fun l => Py.contains nbsp l = false /\ Notam.strip l = l) lines /\
  (forall l, AvDataWx.taf icao_ident wx_data = inr l -> l = lines) /\
  (forall text, nth_error wx_data 1 = Some text ->
     AvDataWx.taf icao_ident wx_data = inr lines /\
     exists pieces,
       Notam.join (String nbsp EmptyString) pieces = text /\
       Forall (fun p => Py.contains nbsp p = false) pieces /\
       lines = map Notam.strip (filter nonempty pieces)) /\
  (nth_error wx_data 1 = None ->
     lines = [] /\ exists msg, AvDataWx.taf icao_ident wx_data = inl msg).
Proof.
  cbv zeta. destruct wx_data as [|m [|text rest]]; simpl.
  - repeat split; try constructor; try discriminate; eauto.
  - repeat split; try constructor; try discriminate; eauto.
  - destruct (taf_of_pieces text) as (pieces & J & F & E & C).
    split; [exact C|]. split; [now intros l [= <-]|]. split.
    + intros t [= <-]. split; [reflexivity|]. now exists pieces.
    + discriminate.
Qed.
End WeatherFacts.

(** * Instances of the further properties *)

Lemma nearestApts_closest_witness :
  Py.len Fixture.nearest2 =
    Z.min 2 (Py.len (Spec.qualifying Fixture.flat_inv
                       (Airport.location Fixture.kvps) Fixture.catalog)) /\
  exists rest,
    Permutation (Fixture.nearest2 ++ rest)
      (Spec.qualifying Fixture.flat_inv
         (Airport.location Fixture.kvps) Fixture.catalog) /\
    forall e e', In e Fixture.nearest2 -> In e' rest -> Spec.le_range e e'.
Proof.
  apply (QueryExtras.nearestApts_closest
           Fixture.flat_inv Fixture.catalog "KVPS" 2 Fixture.kvps).
  - lia.
  - reflexivity.
  - repeat constructor.
  - vm_compute. reflexivity.
Defined.

Lemma nearestApts_negative_num_witness :
  Py.len Fixture.nearest2 =
    Z.max 0 (Py.len (Spec.qualifying Fixture.flat_inv
                       (Airport.location Fixture.kvps) Fixture.catalog) + -1) /\
  exists dropped,
    Permutation (Fixture.nearest2 ++ dropped)
      (Spec.qualifying Fixture.flat_inv
         (Airport.location Fixture.kvps) Fixture.catalog) /\
    Py.len dropped =
      Z.min (- -1)
        (Py.len (Spec.qualifying Fixture.flat_inv
                   (Airport.location Fixture.kvps) Fixture.catalog)) /\
    forall e e', In e Fixture.nearest2 -> In e' dropped -> Spec.le_range e e'.
Proof.
  apply (QueryExtras.nearestApts_negative_num
           Fixture.flat_inv Fixture.catalog "KVPS" (-1) Fixture.kvps).
  - lia.
  - reflexivity.
  - vm_compute. reflexivity.
Defined.

Lemma bearing_range_agrees_with_nearestApts_witness :
  AvData.bearing_range Fixture.flat_inv Fixture.catalog "KVPS"
    (Airport.icao_ident
       (AeroData.facility
          (AeroData.measure Fixture.flat_inv
             (Airport.location Fixture.kvps) Fixture.knpa)))
  = Ok (AeroData.bearing
          (AeroData.measure Fixture.flat_inv
             (Airport.location Fixture.kvps) Fixture.knpa),
        AeroData.range
          (AeroData.measure Fixture.flat_inv
             (Airport.location Fixture.kvps) Fixture.knpa)).
Proof.
  apply (QueryExtras.bearing_range_agrees_with_nearestApts
           Fixture.flat_inv Fixture.catalog "KVPS" 2 Fixture.nearest2).
  - repeat (constructor; [simpl; intuition discriminate|]). constructor.
  - vm_compute. reflexivity.
  - right. left. reflexivity.
Defined.

Lemma nearest_airports_output_witness :
  [AvData.Text "KVPS"; AvData.Text "KVPS"; AvData.Text "KZJX"]
  = (repeat (AvData.Text (Airport.icao_ident Fixture.kvps))
       (Z.to_nat (Z.min 2
          (Py.len (filter (Spec.long_enough 8000) Fixture.catalog))))
     ++ (if true && (0 <? Z.to_nat (Z.min 2
              (Py.len (filter (Spec.long_enough 8000) Fixture.catalog))))%nat
         then [AvData.Text (Airport.responsible_artcc Fixture.kvps)]
         else []))%list.
Proof.
  apply (QueryExtras.nearest_airports_output
           Fixture.flat_inv Fixture.catalog "kvps" 2 8000 true true
           Fixture.kvps).
  - lia.
  - reflexivity.
  - vm_compute. reflexivity.
Defined.

Lemma convertToDeg_raises_ValueError_witness :
  exists s,
    ValueError (InvalidFloatLiteral "5X.4000")
    = ValueError (InvalidIntLiteral s) \/
    ValueError (InvalidFloatLiteral "5X.4000")
    = ValueError (InvalidFloatLiteral s).
Proof.
  apply (ParseExtras.convertToDeg_raises_ValueError
           "30-28-5X.4000N" "086-31-30.9000W").
  vm_compute. reflexivity.
Defined.

Lemma parseAirports_aborts_on_bad_coordinates_witness :
  AeroData.parseAirports Fixture.bad_coordinate_lines
  = Err (ValueError (InvalidIntLiteral "3X")).
Proof.
  apply (ParseExtras.parseAirports_aborts_on_bad_coordinates
           Fixture.bad_coordinate_lines 4).
  - vm_compute. auto.
  - vm_compute. reflexivity.
  - intros j Hj Hlt. vm_compute in Hj.
    destruct Hj as [<-|[<-|[]]]; [|lia].
    eexists. vm_compute. reflexivity.
Defined.

Lemma parseAirports_responsible_artcc_witness :
  Forall2 (fun i a =>
             Airport.responsible_artcc a
             = Spec.normalize
                 (Py.rstrip (Py.slice 674 678 (nth i Fixture.lines ""))))
          (Spec.facility_positions Fixture.lines) Fixture.parsed.
Proof.
  apply (ParseExtras.parseAirports_responsible_artcc
           Fixture.lines Fixture.parsed).
  vm_compute. reflexivity.
Defined.

Lemma generateURL_cycle_witness :
  exists fuel0, forall fuel, (fuel0 <= fuel)%nat ->
    Cycle.generateURL Fixture.strftime fuel (Cycle.timedelta_days 40)
    = Some (Some
        ("https://nfdc.faa.gov/webContent/28DaySub/28DaySubscription_Effective_"
           ++ Fixture.strftime
                (Spec.period * Spec.cycles_before (Cycle.timedelta_days 40))
           ++ ".zip")) /\
    (Spec.period < Cycle.timedelta_days 40 ->
     Spec.period * Spec.cycles_before (Cycle.timedelta_days 40)
       < Cycle.timedelta_days 40
       <= Spec.period * Spec.cycles_before (Cycle.timedelta_days 40)
          + Spec.period) /\
    (Cycle.timedelta_days 40 <= Spec.period ->
     Spec.cycles_before (Cycle.timedelta_days 40) = 0).
Proof.
  apply (CycleFacts.generateURL_cycle Fixture.strftime (Cycle.timedelta_days 40)).
  vm_compute. discriminate.
Defined.


(** The sample data run through the code of the further properties. *)
Example further_samples :
  Cycle.generateURL Fixture.strftime 3 (Cycle.timedelta_days 40)
  = Some (Some
      "https://nfdc.faa.gov/webContent/28DaySub/28DaySubscription_Effective_2020-11-05.zip") /\
  Notam.getNotams [Fixture.notam_text; Fixture.notam_text; " "; "A  B" ++ Fixture.newline ++ "C"]
  = Ok ["RWY 12/30 CLSD EXC PPR"; "RWY 12/30 CLSD EXC PPR"; "A B C"] /\
  Preflight.facility_str
    [AeroData.measure Fixture.flat_inv (Airport.location Fixture.kvps) Fixture.kvps;
     AeroData.measure Fixture.flat_inv (Airport.location Fixture.kvps) Fixture.lake;
     AeroData.measure Fixture.flat_inv (Airport.location Fixture.kvps) Fixture.knpa]
  = ["KVPS"; "F95"; "KNPA"; "KZJX"; "KZTL"] /\
  AvData.nearest_airports Fixture.flat_inv Fixture.catalog "kvps" 2 8000 true true
  = Ok [AvData.Text "KVPS"; AvData.Text "KVPS"; AvData.Text "KZJX"].
Proof. repeat split; vm_compute; reflexivity. Qed.

Example taf_sample :
  AvWeather.taf_of
    ("TAF KVPS 041100Z 0412/0518 VRB05KT 9999 SKC " ++ Fixture.newline
       ++ String AvWeather.nbsp (String AvWeather.nbsp
            (" BECMG 0415/0416 18010KT" ++ String AvWeather.nbsp " ")))
  = ["TAF KVPS 041100Z 0412/0518 VRB05KT 9999 SKC";
     "BECMG 0415/0416 18010KT"; ""].
Proof. vm_compute. reflexivity. Qed.
